(** * Hostel price scraper: a model of [finalapp.py] and its properties

    The development embeds the acquisition and pricing pipeline of
    [src/Here/finalapp.py]:

    - [parse_hotel_prices] (numeric extraction from the formatted price),
    - [process_hostel_data] (availability filter, date selection, min / mean,
      room-type pricing rules),
    - [scrape_prices], [scrape_hostel] and [scrape_hotels] (the availability
      query, the per-property fetch and the batch).

    Modelling conventions.

    - A Python [float] is an exact rational ([Q]); NaN, which pandas uses for
      a missing value, is [None].  Every literal of the source (0.01, 0.8,
      1.2, 5.5, 0.08) is a decimal and is represented exactly.  The module
      [Binary64] re-runs the arithmetic of the pricing rules in IEEE
      binary64 on the concrete price used by the specification.
    - [round(x, 2)] rounds the exact value half-to-even to a number of cents.
    - A calendar date is its day ordinal ([Z]); [(b - a).days] is [b - a].
    - A Python dict with string keys is a [gmap string _]; a dict whose keys
      are fixed by the code is a record of optional fields.
    - The network is an oracle: a session answers a request with a response
      or with an exception; every function also returns the list of calls
      it made. *)

From Stdlib Require Import ZArith QArith Qround Qminmax String Ascii List Lia Bool.
From Stdlib Require PrimFloat FloatOps SpecFloat.
From Stdlib Require Import Lqa.
From stdpp Require Import gmap strings list fin_maps pretty.

Set Warnings "-register-all".
#[local] Open Scope string_scope.

(** ** Floats *)

(** A Python float: [Some q] is the finite value [q], [None] is NaN. *)
Definition float : Type := option Q.

Definition fmul (x y : float) : float :=
  match x, y with Some a, Some b => Some (a * b)%Q | _, _ => None end.

Definition fsub (x y : float) : float :=
  match x, y with Some a, Some b => Some (a - b)%Q | _, _ => None end.

(** A literal of the source. *)
Definition lit (q : Q) : float := Some q.

Notation "x *. y" := (fmul x y) (at level 40, left associativity).
Notation "x -. y" := (fsub x y) (at level 50, left associativity).

(** [x > y] on floats; a comparison with NaN is false. *)
Definition fgt (x y : float) : bool :=
  match x, y with Some a, Some b => negb (Qle_bool a b) | _, _ => false end.

(** Nearest integer, ties to the even one. *)
Definition round_half_even (x : Q) : Z :=
  let f := Qfloor x in
  match ((x - inject_Z f) ?= 1 # 2)%Q with
  | Lt => f
  | Gt => (f + 1)%Z
  | Eq => if Z.even f then f else (f + 1)%Z
  end.

(** Python's [round(x, 2)]: a whole number of cents. *)
Definition round2 (x : float) : float :=
  match x with
  | Some a => Some (round_half_even (a * 100) # 100)%Q
  | None => None
  end.

(** ** Numeric extraction

    [df['avgPriceFormatted'].str.extract(PATTERN).astype(float)], where
    PATTERN is: one or more digits, an optional point, any number of
    digits. *)

Definition is_digit (c : ascii) : bool :=
  (48 <=? nat_of_ascii c)%nat && (nat_of_ascii c <=? 57)%nat.

Definition digit_value (c : ascii) : Z := (Z.of_nat (nat_of_ascii c) - 48)%Z.

(** The longest run of digits at the head of [s], and what follows it. *)
Fixpoint span_digits (s : string) : list ascii * string :=
  match s with
  | String c s' =>
      if is_digit c
      then let '(ds, rest) := span_digits s' in (c :: ds, rest)
      else ([], s)
  | EmptyString => ([], s)
  end.

(** The pattern matched at the head of [s]: the digits before and after the
    optional point.  Each quantifier is greedy and never has to give back. *)
Definition match_number (s : string) : option (list ascii * list ascii) :=
  match span_digits s with
  | ([], _) => None
  | (int_part, String "." rest) => Some (int_part, fst (span_digits rest))
  | (int_part, _) => Some (int_part, [])
  end.

(** The leftmost match in [s]: it starts at the first digit. *)
Fixpoint extract_number (s : string) : option (list ascii * list ascii) :=
  match s with
  | EmptyString => None
  | String c s' => if is_digit c then match_number s else extract_number s'
  end.

Definition digits_to_Z (ds : list ascii) : Z :=
  fold_left (fun acc c => (acc * 10 + digit_value c)%Z) ds 0%Z.

(** [float("123.45")]: the decimal is read exactly. *)
Definition float_of_digits (int_part frac_part : list ascii) : Q :=
  digits_to_Z (int_part ++ frac_part)
    # Z.to_pos (10 ^ Z.of_nat (length frac_part)).

(** The [price] cell of one row: NaN when the text holds no digit. *)
Definition extract_price (text : string) : float :=
  match extract_number text with
  | Some (i, f) => Some (float_of_digits i f)
  | None => None
  end.

(** ** Day records and the price table *)

(** One element of the [days] list of the availability response. *)
Record RawDayRecord := {
  checkin : Z;
  available : bool;
  avgPriceFormatted : string
}.

(** One row of the DataFrame built by [parse_hotel_prices]: the columns of
    the record, plus [price] and [date]. *)
Record Row := {
  raw : RawDayRecord;
  price : float;
  date : Z
}.

Definition parse_row (r : RawDayRecord) : Row :=
  {| raw := r; price := extract_price (avgPriceFormatted r); date := checkin r |}.

(** [parse_hotel_prices]: an empty input gives the empty frame. *)
Definition parse_hotel_prices (price_data : list RawDayRecord) : list Row :=
  map parse_row price_data.

(** [df[df['price'] > 0.01]] *)
Definition filter_available (df : list Row) : list Row :=
  List.filter (fun r => fgt (price r) (lit 0.01)) df.

(** [df[df['date'].dt.date == selected_date]] *)
Definition filter_date (d : Z) (df : list Row) : list Row :=
  List.filter (fun r => (date r =? d)%Z) df.

(** The normalisation of a list of day records: extraction, then the
    availability filter. *)
Definition normalize (price_data : list RawDayRecord) : list Row :=
  filter_available (parse_hotel_prices price_data).

(** ** Series aggregates *)

(** pandas aggregates skip missing values. *)
Fixpoint dropna (s : list float) : list Q :=
  match s with
  | [] => []
  | Some x :: s' => x :: dropna s'
  | None :: s' => dropna s'
  end.

Definition Qsum (l : list Q) : Q := fold_right Qplus 0%Q l.

(** [Series.min()]: NaN when no value is left. *)
Definition series_min (s : list float) : float :=
  match dropna s with
  | [] => None
  | x :: xs => Some (fold_left Qmin xs x)
  end.

(** [Series.mean()]: NaN when no value is left. *)
Definition series_mean (s : list float) : float :=
  match dropna s with
  | [] => None
  | xs => Some (Qsum xs / inject_Z (Z.of_nat (length xs)))%Q
  end.

(** ** Exceptions and results *)

(** The exceptions the modelled code can meet: a [TypeError] of the
    interpreter, a [JSONDecodeError] of [json.loads], and whatever the HTTP
    client raises (class name and message).  The message texts of the first
    two depend on the interpreter version; no statement below relies on
    them. *)
Inductive exn :=
  | TypeError (msg : string)
  | KeyError (msg : string)
  | JSONDecodeError (msg : string)
  | ClientError (cls msg : string).

(** [str(e)] *)
Definition str (e : exn) : string :=
  match e with
  | TypeError msg | KeyError msg | JSONDecodeError msg | ClientError _ msg => msg
  end.

Inductive outcome (A : Type) :=
  | Returned (a : A)
  | Raised (e : exn).
Arguments Returned {A} a.
Arguments Raised {A} e.

(** ** The per-property dict

    [scrape_hostel] returns a dict with a fixed set of optional keys, and
    [process_hostel_data] reads it.  [D] is the type of the day list: the
    JSON value of the response while scraping, a list of day records when
    the prices are processed. *)
Record hostel_dict (D : Type) := {
  h_name : option string;
  h_type : option string;
  h_url : option string;
  h_error : option string;
  h_original_name : option string;
  h_price_2_adults : option D;
  h_price_2_adults_error : option string;
  h_price_1_adult : option D;
  h_price_1_adult_error : option string
}.
Arguments h_name {D} _.
Arguments h_type {D} _.
Arguments h_url {D} _.
Arguments h_error {D} _.
Arguments h_original_name {D} _.
Arguments h_price_2_adults {D} _.
Arguments h_price_2_adults_error {D} _.
Arguments h_price_1_adult {D} _.
Arguments h_price_1_adult_error {D} _.

(** ** Derived prices: [process_hostel_data] *)

(** A value stored in a result record. *)
Inductive value :=
  | VStr (s : string)
  | VNum (x : float)
  | VInt (n : Z)
  | VBool (b : bool).

(** [end_date is not None and end_date != selected_date] *)
Definition is_date_range (selected_date end_date : option Z) : bool :=
  match end_date with
  | Some e => negb (bool_decide (selected_date = Some e))
  | None => false
  end.

(** [(end_date - selected_date).days + 1 if end_date else 1]; a date is
    always true, and subtracting [None] from a date raises. *)
Definition total_days_in_range (selected_date end_date : option Z) : outcome Z :=
  match end_date, selected_date with
  | None, _ => Returned 1%Z
  | Some e, Some s => Returned (e - s + 1)%Z
  | Some _, None =>
      Raised (TypeError "unsupported operand type(s) for -: 'datetime.date' and 'NoneType'")
  end.

(** [(x - tax) - (x - tax) * 0.08], as the source computes it in three
    assignments ([precio_sin_tasa], [interes], [precio_sin_tasa_final]). *)
Definition interes (x tax : float) : float := (x -. tax) *. lit 0.08.
Definition precio_sin_tasa_final (x tax : float) : float :=
  (x -. tax) -. interes x tax.

(** Lines 506-524: the assignments of the ['Privado'] branch, 2 adults. *)
Definition privado_2_adults (price_2_adults : float)
    (result : gmap string value) : gmap string value :=
  let tax := lit 5.5 *. lit 2 in
  let result := <["Precio Hab Baño Privado 2 Adultos" := VNum (round2 price_2_adults)]> result in
  let result := <["Precio Hab Baño Compartido 2 Adultos" := VNum (round2 (price_2_adults *. lit 0.8))]> result in
  let result := <["Precio Hab Baño Compartido 2 Adultos (Calculado)" := VBool true]> result in
  let result := <["Precio Sin Tasa Privado 2 Adultos" := VNum (round2 (precio_sin_tasa_final price_2_adults tax))]> result in
  let result := <["Tasa Turística 2 Adultos" := VNum tax]> result in
  let result := <["Interés 8% Privado 2 Adultos" := VNum (round2 (interes price_2_adults tax))]> result in
  let result := <["Precio Sin Tasa Compartido 2 Adultos" := VNum (round2 (precio_sin_tasa_final (price_2_adults *. lit 0.8) tax))]> result in
  <["Interés 8% Compartido 2 Adultos" := VNum (round2 (interes (price_2_adults *. lit 0.8) tax))]> result.

(** Lines 526-544 and, with the same assignments, 546-564: the
    ['Compartido'] and the ['Híbrido'] branches, 2 adults. *)
Definition compartido_2_adults (price_2_adults : float)
    (result : gmap string value) : gmap string value :=
  let tax := lit 5.5 *. lit 2 in
  let result := <["Precio Hab Baño Compartido 2 Adultos" := VNum (round2 price_2_adults)]> result in
  let result := <["Precio Hab Baño Privado 2 Adultos" := VNum (round2 (price_2_adults *. lit 1.2))]> result in
  let result := <["Precio Hab Baño Privado 2 Adultos (Calculado)" := VBool true]> result in
  let result := <["Precio Sin Tasa Compartido 2 Adultos" := VNum (round2 (precio_sin_tasa_final price_2_adults tax))]> result in
  let result := <["Tasa Turística 2 Adultos" := VNum tax]> result in
  let result := <["Interés 8% Compartido 2 Adultos" := VNum (round2 (interes price_2_adults tax))]> result in
  let result := <["Precio Sin Tasa Privado 2 Adultos" := VNum (round2 (precio_sin_tasa_final (price_2_adults *. lit 1.2) tax))]> result in
  <["Interés 8% Privado 2 Adultos" := VNum (round2 (interes (price_2_adults *. lit 1.2) tax))]> result.

(** Lines 505-564: the dispatch on [hostel.get('type')]. *)
Definition rules_2_adults (ty : option string) (price_2_adults : float)
    (result : gmap string value) : gmap string value :=
  if bool_decide (ty = Some "Privado") then
    privado_2_adults price_2_adults result
  else if bool_decide (ty = Some "Compartido") then
    compartido_2_adults price_2_adults result
  else if bool_decide (ty = Some "Híbrido") || bool_decide (ty = Some "Hibrido") then
    compartido_2_adults price_2_adults result
  else result.

(** Lines 615-626: the ['Privado'] branch, 1 adult. *)
Definition privado_1_adult (price_1_adult : float)
    (result : gmap string value) : gmap string value :=
  let tax := lit 5.5 in
  let result := <["Precio Hab Baño Compartido 1 Adulto" := VNum (round2 (price_1_adult *. lit 0.8))]> result in
  let result := <["Precio Sin Tasa Compartido 1 Adulto" := VNum (round2 (precio_sin_tasa_final (price_1_adult *. lit 0.8) tax))]> result in
  let result := <["Tasa Turística 1 Adulto" := VNum tax]> result in
  <["Interés 8% Compartido 1 Adulto" := VNum (round2 (interes (price_1_adult *. lit 0.8) tax))]> result.

(** Lines 628-638 and, with the same assignments, 640-650: the
    ['Compartido'] and the ['Híbrido'] branches, 1 adult. *)
Definition compartido_1_adult (price_1_adult : float)
    (result : gmap string value) : gmap string value :=
  let tax := lit 5.5 in
  let result := <["Precio Hab Baño Compartido 1 Adulto" := VNum (round2 price_1_adult)]> result in
  let result := <["Precio Sin Tasa Compartido 1 Adulto" := VNum (round2 (precio_sin_tasa_final price_1_adult tax))]> result in
  let result := <["Tasa Turística 1 Adulto" := VNum tax]> result in
  <["Interés 8% Compartido 1 Adulto" := VNum (round2 (interes price_1_adult tax))]> result.

(** Lines 614-650: the dispatch on [hostel.get('type')]. *)
Definition rules_1_adult (ty : option string) (price_1_adult : float)
    (result : gmap string value) : gmap string value :=
  if bool_decide (ty = Some "Privado") then
    privado_1_adult price_1_adult result
  else if bool_decide (ty = Some "Compartido") then
    compartido_1_adult price_1_adult result
  else if bool_decide (ty = Some "Híbrido") || bool_decide (ty = Some "Hibrido") then
    compartido_1_adult price_1_adult result
  else result.

(** How a block of the loop body ends: it falls through to the next
    statement with the record built so far, executes [continue], or
    raises. *)
Inductive signal :=
  | Next (result : gmap string value)
  | Continue
  | Throw (e : exn).

(** Lines 458-564 and 567-650.  The two blocks have the same text up to the
    names of the two day-count keys and the pricing rules, which are the
    parameters [k_days], [k_total] and [rules]; [data] is
    [hostel.get(key)], absent when the key is. *)
Definition price_block (k_days k_total : string)
    (rules : float -> gmap string value -> gmap string value)
    (selected_date end_date : option Z)
    (data : option (list RawDayRecord))
    (result : gmap string value) : signal :=
  match data with
  | None | Some [] => Next result
  | Some price_data =>
      let df := parse_hotel_prices price_data in
      match df with
      | [] => Next result
      | _ :: _ =>
          let df_filtered := filter_available df in
          match df_filtered with
          | [] => Continue
          | _ :: _ =>
              match selected_date, is_date_range selected_date end_date with
              | Some d, false =>
                  let df_date_filtered := filter_date d df_filtered in
                  match df_date_filtered with
                  | [] => Continue
                  | _ :: _ =>
                      Next (rules (series_min (map price df_date_filtered)) result)
                  end
              | _, _ =>
                  let available_days_count := Z.of_nat (length df_filtered) in
                  match total_days_in_range selected_date end_date with
                  | Raised e => Throw e
                  | Returned total =>
                      let result := <[k_days := VInt available_days_count]> result in
                      let result := <[k_total := VInt total]> result in
                      Next (rules (series_mean (map price df_filtered)) result)
                  end
              end
          end
      end
  end.

Definition block_2_adults (selected_date end_date : option Z)
    (hostel : hostel_dict (list RawDayRecord))
    (result : gmap string value) : signal :=
  price_block "Días con Disponibilidad" "Total Días en Rango"
    (rules_2_adults (h_type hostel))
    selected_date end_date (h_price_2_adults hostel) result.

Definition block_1_adult (selected_date end_date : option Z)
    (hostel : hostel_dict (list RawDayRecord))
    (result : gmap string value) : signal :=
  price_block "Días con Disponibilidad 1A" "Total Días en Rango 1A"
    (rules_1_adult (h_type hostel))
    selected_date end_date (h_price_1_adult hostel) result.

(** Lines 451-455: the record a property starts with. *)
Definition initial_result (hostel : hostel_dict (list RawDayRecord)) : gmap string value :=
  <["URL" := VStr (default "" (h_url hostel))]>
    (<["Tipo" := VStr (default "Unknown Type" (h_type hostel))]>
      (<["Nombre Hotel" :=
           VStr (default (default "Unknown Hotel" (h_name hostel)) (h_original_name hostel))]> ∅)).

(** [any(key.startswith('Precio') for key in result.keys())] *)
Definition has_price_key (result : gmap string value) : bool :=
  existsb (fun kv => String.prefix "Precio" (fst kv)) (map_to_list result).

(** Lines 652-654. *)
Definition mark_no_prices (result : gmap string value) : gmap string value :=
  if has_price_key result then result
  else <["Error" := VStr "No pricing data available for this hostel"]> result.

(** One iteration of the loop over a property without an ['error'] key:
    [Next r] when [r] is appended to [results], [Continue] when the
    iteration ends before the append. *)
Definition process_hostel (selected_date end_date : option Z)
    (hostel : hostel_dict (list RawDayRecord)) : signal :=
  match block_2_adults selected_date end_date hostel (initial_result hostel) with
  | Next result =>
      match block_1_adult selected_date end_date hostel result with
      | Next result => Next (mark_no_prices result)
      | s => s
      end
  | s => s
  end.

(** [process_hostel_data]: the pair [(results, error_hostels)]. *)
Fixpoint process_hostel_data (hostels_data : list (hostel_dict (list RawDayRecord)))
    (selected_date end_date : option Z)
    : outcome (list (gmap string value) * list (hostel_dict (list RawDayRecord))) :=
  match hostels_data with
  | [] => Returned ([], [])
  | hostel :: rest =>
      match h_error hostel with
      | Some _ =>
          match process_hostel_data rest selected_date end_date with
          | Returned (results, error_hostels) => Returned (results, hostel :: error_hostels)
          | Raised e => Raised e
          end
      | None =>
          match process_hostel selected_date end_date hostel with
          | Throw e => Raised e
          | Continue => process_hostel_data rest selected_date end_date
          | Next result =>
              match process_hostel_data rest selected_date end_date with
              | Returned (results, error_hostels) => Returned (result :: results, error_hostels)
              | Raised e => Raised e
              end
          end
      end
  end.

(** ** JSON values and the availability query: [scrape_prices] *)

(** [needle in text] on strings. *)
Definition has_substring (needle text : string) : bool :=
  match String.index 0 needle text with
  | Some _ => true
  | None => false
  end.

(** What [json.loads] returns. *)
Inductive json :=
  | JNull
  | JBool (b : bool)
  | JNum (q : Q)
  | JStr (s : string)
  | JArr (l : list json)
  | JObj (m : gmap string json).

(** [key == v] for a string [key] and a decoded value [v]. *)
Definition json_is_str (key : string) (v : json) : bool :=
  match v with
  | JStr s => bool_decide (s = key)
  | _ => false
  end.

(** [key in v]: key membership on a dict, element membership on a list,
    substring on a string, a [TypeError] on anything else. *)
Definition py_in (key : string) (v : json) : outcome bool :=
  match v with
  | JObj m => Returned (bool_decide (is_Some (m !! key)))
  | JArr l => Returned (existsb (json_is_str key) l)
  | JStr s => Returned (has_substring key s)
  | JNull | JBool _ | JNum _ => Raised (TypeError "argument is not iterable")
  end.

(** [v[key]] for a string [key]. *)
Definition py_getitem (v : json) (key : string) : outcome json :=
  match v with
  | JObj m =>
      match m !! key with
      | Some x => Returned x
      | None => Raised (KeyError key)
      end
  | JArr _ | JStr _ => Raised (TypeError "indices must be integers")
  | JNull | JBool _ | JNum _ => Raised (TypeError "object is not subscriptable")
  end.

(** Sequencing: an exception ends the computation. *)
#[export] Instance outcome_bind : MBind outcome := fun A B k x =>
  match x with
  | Returned a => k a
  | Raised e => Raised e
  end.

(** Lines 417-429: the checks on the decoded response. *)
Definition read_days (price_data : json) : outcome json :=
  has_data ← py_in "data" price_data;
  if negb has_data then Returned (JArr []) else
  data ← py_getitem price_data "data";
  has_calendar ← py_in "availabilityCalendar" data;
  if negb has_calendar then Returned (JArr []) else
  calendar ← py_getitem data "availabilityCalendar";
  has_days ← py_in "days" calendar;
  if negb has_days then Returned (JArr []) else
  py_getitem calendar "days".

(** The variable part of the GraphQL body and of the headers of the POST. *)
Record AvailabilityQuery := {
  countryCode : string;
  pagename : string;
  startDate : Z;
  amountOfDays : Z;
  nbAdults : Z;
  nbRooms : Z;
  x_booking_csrf_token : string
}.

(** The body of a response: [json.loads] decodes it or raises. *)
Inductive content :=
  | NotJson
  | Json (j : json).

Inductive post_result :=
  | PostRaises (e : exn)
  | PostResponse (status_code : Z) (body : content).

(** What the code reads in the landing page: the first match of each of
    its regular expressions in [resp.text], [str(resp.url)], and the slug
    the URL pattern finds in [str(resp.url)]. *)
Record landing_page := {
  hotelName : option string;
  slug_in_text : option string;
  hotelCountry : option string;
  b_csrf_token : option string;
  final_url : string;
  slug_in_url : option string
}.

Inductive get_result :=
  | GetRaises (e : exn)
  | GetResponse (status_code : Z) (page : landing_page).

(** The shared HTTP session: the remote answers of the run. *)
Record Session := {
  get : string -> get_result;
  post : AvailabilityQuery -> post_result
}.

(** A network call made by the code. *)
Inductive call :=
  | GET (url : string)
  | POST (query : AvailabilityQuery).

(** Lines 362-372: the number of days requested. *)
Definition price_n_days (start_date : Z) (end_date : option Z) : Z :=
  let price_n_days :=
    match end_date with
    | Some e => (e - start_date + 1)%Z
    | None => 1%Z
    end in
  if (30 <? price_n_days)%Z then 30%Z else price_n_days.

(** [scrape_prices]: the calls it made and how it ended.  The handler of
    its [try] re-raises the exception it caught. *)
Definition scrape_prices (session : Session)
    (hotel_name hotel_country csrf_token : string) (num_adults : Z)
    (start_date : Z) (end_date : option Z) : list call * outcome json :=
  let query :=
    {| countryCode := hotel_country;
       pagename := hotel_name;
       startDate := start_date;
       amountOfDays := price_n_days start_date end_date;
       nbAdults := num_adults;
       nbRooms := 1;
       x_booking_csrf_token := csrf_token |} in
  ([POST query],
   match post session query with
   | PostRaises e => Raised e
   | PostResponse _ NotJson => Raised (JSONDecodeError "Expecting value")
   | PostResponse _ (Json price_data) => read_days price_data
   end).

(** ** One property: [scrape_hostel] *)

Definition is_lower (c : ascii) : bool :=
  (97 <=? nat_of_ascii c)%nat && (nat_of_ascii c <=? 122)%nat.

Definition is_upper (c : ascii) : bool :=
  (65 <=? nat_of_ascii c)%nat && (nat_of_ascii c <=? 90)%nat.

Definition to_upper (c : ascii) : ascii :=
  if is_lower c then ascii_of_nat (nat_of_ascii c - 32) else c.

Definition to_lower (c : ascii) : ascii :=
  if is_upper c then ascii_of_nat (nat_of_ascii c + 32) else c.

(** [str.title()] on ASCII text: a letter is upper-cased after a character
    that is not a letter and lower-cased after a letter.  [cased] tells
    whether the previous character was a letter. *)
Fixpoint title (cased : bool) (s : string) : string :=
  match s with
  | EmptyString => EmptyString
  | String c s' =>
      if is_lower c || is_upper c
      then String (if cased then to_lower c else to_upper c) (title true s')
      else String c (title false s')
  end.

(** [' '.join(slug.split('-'))]: every hyphen becomes a space. *)
Fixpoint hyphens_to_spaces (s : string) : string :=
  match s with
  | EmptyString => EmptyString
  | String c s' =>
      String (if Ascii.eqb c "-" then " "%char else c) (hyphens_to_spaces s')
  end.

(** [' '.join(slug.split('-')).title()] *)
Definition name_of_slug (slug : string) : string :=
  title false (hyphens_to_spaces slug).

(** [parse_hotel(html)['name']] *)
Definition parse_hotel (page : landing_page) : string :=
  match hotelName page with
  | Some hotel_name => hotel_name
  | None =>
      match slug_in_text page with
      | Some slug => name_of_slug slug
      | None => "Unknown Hotel"
      end
  end.

(** The dict returned on the three failure paths of [scrape_hostel]. *)
Definition error_record (hostel : gmap string string) (url error : string)
    : hostel_dict json :=
  {| h_name := Some (default "Unknown Hotel" (hostel !! "name"));
     h_type := Some (default "Unknown Type" (hostel !! "type"));
     h_url := Some url;
     h_error := Some error;
     h_original_name := None;
     h_price_2_adults := None;
     h_price_2_adults_error := None;
     h_price_1_adult := None;
     h_price_1_adult_error := None |}.

(** [hostel.get('url', hostel.get('link', ''))] *)
Definition hostel_url (hostel : gmap string string) : string :=
  default (default "" (hostel !! "link")) (hostel !! "url").

(** Lines 284-347: what follows a landing page fetched with status 200.
    Each of the two availability queries has a [try] of its own. *)
Definition scrape_page (session : Session) (start_date : Z) (end_date : option Z)
    (hostel : gmap string string) (page : landing_page)
    : list call * hostel_dict json :=
  let name := parse_hotel page in
  let original_name := default "Unknown Hotel" (hostel !! "name") in
  let _hotel_country := default "unknown" (hotelCountry page) in
  let _hotel_name :=
    match hotelName page with
    | Some n => n
    | None =>
        match slug_in_url page with
        | Some slug => name_of_slug slug
        | None => original_name
        end
    end in
  let _csrf_token := default "" (b_csrf_token page) in
  let name :=
    if negb (String.eqb _hotel_name "") && String.eqb name ""
    then _hotel_name else name in
  let '(calls_2, r2) :=
    scrape_prices session _hotel_name _hotel_country _csrf_token 2 start_date end_date in
  let '(calls_1, r1) :=
    scrape_prices session _hotel_name _hotel_country _csrf_token 1 start_date end_date in
  ((calls_2 ++ calls_1)%list,
   {| h_name := Some name;
      h_type := Some (default "Unknown Type" (hostel !! "type"));
      h_url := Some (final_url page);
      h_error := None;
      h_original_name := Some original_name;
      h_price_2_adults :=
        Some (match r2 with Returned days => days | Raised _ => JArr [] end);
      h_price_2_adults_error :=
        match r2 with Returned _ => None | Raised e => Some (str e) end;
      h_price_1_adult :=
        Some (match r1 with Returned days => days | Raised _ => JArr [] end);
      h_price_1_adult_error :=
        match r1 with Returned _ => None | Raised e => Some (str e) end |}).

(** [scrape_hostel]: the calls it made and the dict it returns.  Every
    exception raised after the URL test is caught by the outer handler. *)
Definition scrape_hostel (session : Session) (start_date : Z) (end_date : option Z)
    (hostel : gmap string string) : list call * hostel_dict json :=
  let url := hostel_url hostel in
  if String.eqb url "" then ([], error_record hostel url "Missing URL")
  else
    match get session url with
    | GetRaises e => ([GET url], error_record hostel url (str e))
    | GetResponse status_code page =>
        if negb (status_code =? 200)%Z
        then ([GET url],
              error_record hostel url ("HTTP status " ++ pretty status_code))
        else
          let '(calls, hotel_info) :=
            scrape_page session start_date end_date hostel page in
          (GET url :: calls, hotel_info)
    end.

(** ** The batch: [scrape_hotels]

    [asyncio.gather] starts one task per element and stores the value a
    task returns in the slot of that task, whenever it completes; it
    returns the slots in order once all are filled. *)

(** The task at position [i] completes. *)
Definition complete {T R : Type} (run : T -> R) (tasks : list T)
    (slots : list (option R)) (i : nat) : list (option R) :=
  match tasks !! i with
  | Some t => <[i := Some (run t)]> slots
  | None => slots
  end.

(** [gather] under the completion order [order]: [None] when a task never
    completes. *)
Definition gather {T R : Type} (run : T -> R) (tasks : list T)
    (order : list nat) : option (list R) :=
  mapM id (fold_left (complete run tasks) order (replicate (length tasks) None)).

(** [scrape_hotels]: one [scrape_hostel] task per property.  The
    [num_adults] parameter of the source is not used by its body. *)
Definition scrape_hotels (hostels : list (gmap string string)) (session : Session)
    (start_date : Z) (end_date : option Z) (order : list nat)
    : option (list (hostel_dict json)) :=
  gather (fun hostel => snd (scrape_hostel session start_date end_date hostel))
    hostels order.

(** ** The keys of a result record *)

(** Every key [process_hostel_data] assigns. *)
Definition result_keys : list string :=
  ["Nombre Hotel"; "Tipo"; "URL";
   "Días con Disponibilidad"; "Total Días en Rango";
   "Precio Hab Baño Privado 2 Adultos";
   "Precio Hab Baño Compartido 2 Adultos";
   "Precio Hab Baño Privado 2 Adultos (Calculado)";
   "Precio Hab Baño Compartido 2 Adultos (Calculado)";
   "Precio Sin Tasa Privado 2 Adultos";
   "Precio Sin Tasa Compartido 2 Adultos";
   "Tasa Turística 2 Adultos";
   "Interés 8% Privado 2 Adultos";
   "Interés 8% Compartido 2 Adultos";
   "Días con Disponibilidad 1A"; "Total Días en Rango 1A";
   "Precio Hab Baño Compartido 1 Adulto";
   "Precio Sin Tasa Compartido 1 Adulto";
   "Tasa Turística 1 Adulto";
   "Interés 8% Compartido 1 Adulto";
   "Error"].

(** A key that names a private-room value of the 1-adult case. *)
Definition private_1_adult_key (key : string) : bool :=
  has_substring "Privado" key && has_substring "1 Adult" key.

(** Every key of the record is one of [result_keys]. *)
Definition known_keys (result : gmap string value) : Prop :=
  forall key, is_Some (result !! key) -> In key result_keys.

(** ** The pricing arithmetic in IEEE binary64

    The interpreter computes on binary64 numbers.  [exact] is the rational
    a finite binary64 number stands for, and [cents] is the number of cents
    [round(x, 2)] returns for it: Python rounds the exact value of the
    argument, ties to even. *)
Module Binary64.
Import PrimFloat.

Definition exact (x : PrimFloat.float) : option Q :=
  match FloatOps.Prim2SF x with
  | SpecFloat.S754_zero _ => Some 0%Q
  | SpecFloat.S754_finite s m e =>
      let n := if s then Z.neg m else Z.pos m in
      Some (if (0 <=? e)%Z then inject_Z (n * 2 ^ e) else n # Z.to_pos (2 ^ (- e)))
  | SpecFloat.S754_infinity _ | SpecFloat.S754_nan => None
  end.

Definition cents (x : PrimFloat.float) : option Z :=
  match exact x with
  | Some q => Some (round_half_even (q * 100))
  | None => None
  end.

#[local] Set Warnings "-inexact-float".

(** [(x - tax) - (x - tax) * 0.08] *)
Definition precio_sin_tasa_final (x tax : PrimFloat.float) : PrimFloat.float :=
  PrimFloat.sub (PrimFloat.sub x tax) (PrimFloat.mul (PrimFloat.sub x tax) 0.08%float).

(** [5.5 * 2] *)
Definition tax_2_adults : PrimFloat.float := PrimFloat.mul 5.5%float 2%float.

(** [price * 0.8] *)
Definition shared_of_private (price : PrimFloat.float) : PrimFloat.float :=
  PrimFloat.mul price 0.8%float.

(** The price of the worked example. *)
Definition price_101 : PrimFloat.float := 101%float.

End Binary64.

(** ** The two selection rules, as the specification words them *)

(** Single date: the entries of the normalised sequence on the selected
    day, and their minimum; nothing is computed when none is left. *)
Definition single_date_rule
    (rules : float -> gmap string value -> gmap string value)
    (d : Z) (data : option (list RawDayRecord))
    (result : gmap string value) : signal :=
  match data with
  | None | Some [] => Next result
  | Some price_data =>
      match filter_date d (normalize price_data) with
      | [] => Continue
      | rows => Next (rules (series_min (map price rows)) result)
      end
  end.

(** Range from [d] to [e]: the mean of the normalised sequence, the number
    of its entries and the number of days of the range. *)
Definition range_rule (k_days k_total : string)
    (rules : float -> gmap string value -> gmap string value)
    (d e : Z) (data : option (list RawDayRecord))
    (result : gmap string value) : signal :=
  match data with
  | None | Some [] => Next result
  | Some price_data =>
      match normalize price_data with
      | [] => Continue
      | rows =>
          Next (rules (series_mean (map price rows))
                  (<[k_total := VInt (e - d + 1)]>
                     (<[k_days := VInt (Z.of_nat (length rows))]> result)))
      end
  end.

(** ** A sample property *)

(** A ['Privado'] property with one available day, priced 101, for each
    adult count. *)
Definition private_101 : hostel_dict (list RawDayRecord) :=
  let days := [ {| checkin := 739000; available := true; avgPriceFormatted := "€ 101" |} ] in
  {| h_name := Some "Hostel One";
     h_type := Some "Privado";
     h_url := Some "https://www.booking.com/hotel/es/hostel-one.html";
     h_error := None;
     h_original_name := Some "Hostel One";
     h_price_2_adults := Some days;
     h_price_2_adults_error := None;
     h_price_1_adult := Some days;
     h_price_1_adult_error := None |}.

(** Two days of prices for the examples of the selection rules. *)
Definition two_days : list RawDayRecord :=
  [ {| checkin := 739000; available := true; avgPriceFormatted := "€ 101" |};
    {| checkin := 739001; available := true; avgPriceFormatted := "€ 99.50" |} ].

(** A ['Privado'] property sold out for 2 adults on the selected day (the
    remote reports the price 0) and priced 50 for 1 adult. *)
Definition sold_out_for_two : hostel_dict (list RawDayRecord) :=
  {| h_name := Some "Hostel Two";
     h_type := Some "Privado";
     h_url := Some "https://www.booking.com/hotel/es/hostel-two.html";
     h_error := None;
     h_original_name := Some "Hostel Two";
     h_price_2_adults :=
       Some [ {| checkin := 739000; available := false; avgPriceFormatted := "€ 0" |} ];
     h_price_2_adults_error := None;
     h_price_1_adult :=
       Some [ {| checkin := 739000; available := true; avgPriceFormatted := "€ 50" |} ];
     h_price_1_adult_error := None |}.

(** The same property when the 2-adult query returned no day at all. *)
Definition no_days_for_two : hostel_dict (list RawDayRecord) :=
  {| h_name := Some "Hostel Two";
     h_type := Some "Privado";
     h_url := Some "https://www.booking.com/hotel/es/hostel-two.html";
     h_error := None;
     h_original_name := Some "Hostel Two";
     h_price_2_adults := Some [];
     h_price_2_adults_error := None;
     h_price_1_adult :=
       Some [ {| checkin := 739000; available := true; avgPriceFormatted := "€ 50" |} ];
     h_price_1_adult_error := None |}.

(** A ['Privado'] property priced 101 for 2 adults and sold out for 1. *)
Definition sold_out_for_one : hostel_dict (list RawDayRecord) :=
  {| h_name := Some "Hostel Three";
     h_type := Some "Privado";
     h_url := Some "https://www.booking.com/hotel/es/hostel-three.html";
     h_error := None;
     h_original_name := Some "Hostel Three";
     h_price_2_adults :=
       Some [ {| checkin := 739000; available := true; avgPriceFormatted := "€ 101" |} ];
     h_price_2_adults_error := None;
     h_price_1_adult :=
       Some [ {| checkin := 739000; available := false; avgPriceFormatted := "€ 0" |} ];
     h_price_1_adult_error := None |}.

(** ** Sample remote answers *)

(** A status code outside 200-299. *)
Definition non_2xx (status_code : Z) : Prop :=
  (status_code < 200 \/ 300 <= status_code)%Z.

(** A remote whose availability endpoint answers every query with status
    500 and the JSON object [{}], and whose landing pages cannot be
    fetched. *)
Definition server_error_session : Session :=
  {| get := fun _ => GetRaises (ClientError "ConnectError" "All connection attempts failed");
     post := fun _ => PostResponse 500 (Json (JObj ∅)) |}.

(** The landing page of Hostel One. *)
Definition hostel_one_page : landing_page :=
  {| hotelName := Some "hostel-one";
     slug_in_text := Some "hostel-one";
     hotelCountry := Some "es";
     b_csrf_token := Some "token";
     final_url := "https://www.booking.com/hotel/es/hostel-one.html";
     slug_in_url := Some "hostel-one" |}.

(** A remote that serves the landing page of Hostel One, cannot be reached
    for any other page, and answers every availability query with an empty
    day list. *)
Definition sample_session : Session :=
  {| get := fun url =>
       if String.eqb url "https://www.booking.com/hotel/es/hostel-one.html"
       then GetResponse 200 hostel_one_page
       else GetRaises (ClientError "ConnectError" "All connection attempts failed");
     post := fun _ =>
       PostResponse 200
         (Json (JObj {[ "data" :=
            JObj {[ "availabilityCalendar" := JObj {[ "days" := JArr [] ]} ]} ]})) |}.

(** A batch of three properties: one that can be fetched, one that cannot,
    and one without a URL. *)
Definition sample_batch : list (gmap string string) :=
  [ {[ "name" := "Hostel One"; "type" := "Privado";
       "url" := "https://www.booking.com/hotel/es/hostel-one.html" ]};
    {[ "name" := "Hostel Two"; "type" := "Compartido";
       "link" := "https://www.booking.com/hotel/es/hostel-two.html" ]};
    {[ "name" := "Hostel Three"; "type" := "Hibrido" ]} ].

(** ** Auxiliary notions of the statements *)

(** A record survives the normalisation when its price text yields a
    number above 0.01. *)
Definition kept (r : RawDayRecord) : bool :=
  fgt (extract_price (avgPriceFormatted r)) (lit 0.01).

(** The three type strings whose scraped price is the shared room's. *)
Definition shared_types : list string := ["Compartido"; "Híbrido"; "Hibrido"].

(** The rows of a filtered frame carry finite prices. *)
Definition priced (rows : list Row) : Prop :=
  Forall (fun row => exists p, price row = Some p) rows.

(** The day count of an availability query, when the call is one. *)
Definition days_requested (c : call) : option Z :=
  match c with
  | POST query => Some (amountOfDays query)
  | GET _ => None
  end.

(** A remote whose landing pages answer with status 204 and whose
    availability endpoint answers with an empty day list. *)
Definition no_content_session : Session :=
  {| get := fun _ => GetResponse 204 hostel_one_page;
     post := post sample_session |}.

(** What [scrape_hostel] stores for one adult count: the day list, or the
    empty list and the text of the exception. *)
Definition stored_days (r : outcome json) : json :=
  match r with Returned days => days | Raised _ => JArr [] end.

Definition stored_error (r : outcome json) : option string :=
  match r with Returned _ => None | Raised e => Some (str e) end.

(** ** The keys each set of pricing rules assigns *)

Definition keys_2_adults : list string :=
  ["Precio Hab Baño Privado 2 Adultos";
   "Precio Hab Baño Compartido 2 Adultos";
   "Precio Hab Baño Privado 2 Adultos (Calculado)";
   "Precio Hab Baño Compartido 2 Adultos (Calculado)";
   "Precio Sin Tasa Privado 2 Adultos";
   "Precio Sin Tasa Compartido 2 Adultos";
   "Tasa Turística 2 Adultos";
   "Interés 8% Privado 2 Adultos";
   "Interés 8% Compartido 2 Adultos"].

Definition keys_1_adult : list string :=
  ["Precio Hab Baño Compartido 1 Adulto";
   "Precio Sin Tasa Compartido 1 Adulto";
   "Tasa Turística 1 Adulto";
   "Interés 8% Compartido 1 Adulto"].

(** The four keys of the day counts of a range. *)
Definition day_count_keys : list string :=
  ["Días con Disponibilidad"; "Total Días en Rango";
   "Días con Disponibilidad 1A"; "Total Días en Rango 1A"].

(** The type strings the pricing rules know. *)
Definition known_types : list string :=
  ["Privado"; "Compartido"; "Híbrido"; "Hibrido"].

(** ['error' in hostel] *)
Definition has_error {D : Type} (hostel : hostel_dict D) : bool :=
  match h_error hostel with Some _ => true | None => false end.

(** A scraped property whose fetch failed. *)
Definition failed_fetch : hostel_dict (list RawDayRecord) :=
  {| h_name := Some "Hostel Four";
     h_type := Some "Compartido";
     h_url := Some "https://www.booking.com/hotel/es/hostel-four.html";
     h_error := Some "HTTP status 404";
     h_original_name := None;
     h_price_2_adults := None;
     h_price_2_adults_error := None;
     h_price_1_adult := None;
     h_price_1_adult_error := None |}.

(** A property of a type the pricing rules do not know, with prices. *)
Definition unknown_type : hostel_dict (list RawDayRecord) :=
  {| h_name := Some "Hostel Five";
     h_type := Some "Unknown Type";
     h_url := Some "https://www.booking.com/hotel/es/hostel-five.html";
     h_error := None;
     h_original_name := Some "Hostel Five";
     h_price_2_adults := Some two_days;
     h_price_2_adults_error := None;
     h_price_1_adult := Some two_days;
     h_price_1_adult_error := None |}.

(** The text of the ['Error'] marker of a record without prices. *)
Definition no_pricing_data : value :=
  VStr "No pricing data available for this hostel".

(** ** The list of properties: [load_hostel_data]

    The predefined list is [st.session_state.editable_hostels]; its
    elements and those of the file are decoded JSON values.  The messages
    written to the log and to the page are left out. *)

(** The truth value of a decoded JSON value. *)
Definition json_truthy (v : json) : bool :=
  match v with
  | JNull => false
  | JBool b => b
  | JNum q => negb (Qeq_bool q 0)
  | JStr s => negb (String.eqb s "")
  | JArr l => match l with [] => false | _ :: _ => true end
  | JObj m => match map_to_list m with [] => false | _ :: _ => true end
  end.

(** The truth value of [d.get(key)]: a missing key gives [None]. *)
Definition truthy_get (m : gmap string json) (key : string) : bool :=
  match m !! key with
  | Some v => json_truthy v
  | None => false
  end.

(** Lines 182-183: ['url'] takes the value of ['link'] when only ['link']
    is there. *)
Definition link_to_url (m : gmap string json) : gmap string json :=
  match m !! "link", m !! "url" with
  | Some link, None => <["url" := link]> m
  | _, _ => m
  end.

(** Lines 182-191, one element of the list of the file: the list of
    properties after it, or [None] when the body raises.  An element that
    is not an object raises: the key test, the item access or [get] does
    not apply to it. *)
Definition load_step (hostels : list json) (hostel : json) : option (list json) :=
  match hostel with
  | JObj m =>
      let m := link_to_url m in
      if negb (truthy_get m "url") && negb (truthy_get m "link")
      then Some hostels
      else Some (hostels ++ [JObj m])%list
  | _ => None
  end.

(** Lines 181-191: the loop; the handler of the enclosing [try] returns
    the list as it is when the exception is raised. *)
Fixpoint load_loop (hostels : list json) (additional_hostels : list json) : list json :=
  match additional_hostels with
  | [] => hostels
  | hostel :: rest =>
      match load_step hostels hostel with
      | Some hostels' => load_loop hostels' rest
      | None => hostels
      end
  end.

(** What opening and decoding the file gives. *)
Inductive file_outcome :=
  | FileNotFound
  | InvalidJson
  | OtherReadError
  | Decoded (data : json).

(** [load_hostel_data]; [file] is [None] when [file_path] is.  A value of
    ['hostels'] that is true and not a list yields, when iterated, keys or
    characters, or cannot be iterated: the body raises before anything is
    added. *)
Definition load_hostel_data (editable_hostels : list json)
    (file : option file_outcome) : list json :=
  let hostels := editable_hostels in
  match file with
  | None => hostels
  | Some FileNotFound | Some InvalidJson | Some OtherReadError => hostels
  | Some (Decoded (JObj data)) =>
      let additional_hostels := default (JArr []) (data !! "hostels") in
      if negb (json_truthy additional_hostels) then hostels
      else
        match additional_hostels with
        | JArr l => load_loop hostels l
        | _ => hostels
        end
  | Some (Decoded _) => hostels
  end.

(** An element of the file that [load_hostel_data] accepts: an object
    whose ['url'] or ['link'] is true. *)
Definition accepted (hostel : json) : bool :=
  match hostel with
  | JObj m => truthy_get (link_to_url m) "url" || truthy_get (link_to_url m) "link"
  | _ => false
  end.

(** The element as it is added: with ['url'] filled from ['link']. *)
Definition with_url (hostel : json) : json :=
  match hostel with
  | JObj m => JObj (link_to_url m)
  | other => other
  end.

Definition is_object (hostel : json) : bool :=
  match hostel with JObj _ => true | _ => false end.

(** The objects at the head of a list, up to its first other element. *)
Fixpoint leading_objects (l : list json) : list json :=
  match l with
  | JObj m :: rest => JObj m :: leading_objects rest
  | _ => []
  end.

(** A list with two properties, a string, and a third property. *)
Definition sample_list : list json :=
  [ JObj {[ "name" := JStr "Hostal A"; "link" := JStr "https://www.booking.com/hotel/es/a.html" ]};
    JObj {[ "name" := JStr "Hostal B" ]};
    JStr "https://www.booking.com/hotel/es/c.html";
    JObj {[ "name" := JStr "Hostal D"; "url" := JStr "https://www.booking.com/hotel/es/d.html" ]} ].

(** A file that holds [sample_list]. *)
Definition sample_file : json := JObj {[ "hostels" := JArr sample_list ]}.

(** ** The URL list of [app.py]

    [st.session_state] holds the list of URLs, the scraped data and the
    text of the input field; the handlers of the buttons update it. *)
Record app_state := {
  hotel_urls : list string;
  all_hotel_data : list (gmap string json);
  new_hotel_url : string
}.

(** [url in urls] *)
Definition url_in (url : string) (urls : list string) : bool :=
  existsb (String.eqb url) urls.

(** [add_hotel_url] *)
Definition add_hotel_url (st : app_state) : app_state :=
  if negb (String.eqb (new_hotel_url st) "")
     && negb (url_in (new_hotel_url st) (hotel_urls st))
  then {| hotel_urls := (hotel_urls st ++ [new_hotel_url st])%list;
          all_hotel_data := all_hotel_data st;
          new_hotel_url := "" |}
  else st.

(** What a handler can raise. *)
Inductive app_error :=
  | ValueError
  | MissingKey.

(** [list.remove(x)]: the first occurrence goes; [None] when there is
    none. *)
Fixpoint list_remove (x : string) (l : list string) : option (list string) :=
  match l with
  | [] => None
  | y :: l' =>
      if String.eqb y x then Some l'
      else option_map (cons y) (list_remove x l')
  end.

(** [[h for h in data if h['url'] != url]]: [None] when an element has no
    ['url'] key. *)
Fixpoint without_url (url : string) (data : list (gmap string json))
    : option (list (gmap string json)) :=
  match data with
  | [] => Some []
  | h :: rest =>
      match h !! "url" with
      | None => None
      | Some v =>
          match without_url url rest with
          | None => None
          | Some kept_data =>
              Some (if json_is_str url v then kept_data else h :: kept_data)
          end
      end
  end.

(** [remove_hotel_url]: the state it leaves and the exception it raised,
    if any.  The URL list is updated before the data is filtered. *)
Definition remove_hotel_url (st : app_state) (url_to_remove : string)
    : app_state * option app_error :=
  match list_remove url_to_remove (hotel_urls st) with
  | None => (st, Some ValueError)
  | Some urls =>
      let st := {| hotel_urls := urls;
                   all_hotel_data := all_hotel_data st;
                   new_hotel_url := new_hotel_url st |} in
      match without_url url_to_remove (all_hotel_data st) with
      | None => (st, Some MissingKey)
      | Some data =>
          ({| hotel_urls := urls;
              all_hotel_data := data;
              new_hotel_url := new_hotel_url st |}, None)
      end
  end.

(** [clear_all_hotels] *)
Definition clear_all_hotels (st : app_state) : app_state :=
  {| hotel_urls := []; all_hotel_data := []; new_hotel_url := new_hotel_url st |}.

(** The list of [load_barcelona_hostals]. *)
Definition barcelona_hostals : list string :=
  [ "https://www.booking.com/hotel/es/hostal-ramos.es.html";
    "https://www.booking.com/hotel/es/hostal-santa-ana.es.html";
    "https://www.booking.com/hotel/es/hostal-europa.es.html";
    "https://www.booking.com/hotel/es/hostal-levante-barcelona.es.html";
    "https://www.booking.com/hotel/es/hostal-nuevo-colon.es.html";
    "https://www.booking.com/hotel/es/hostal-benidorm.es.html";
    "https://www.booking.com/hotel/es/hostal-fina.es.html";
    "https://www.booking.com/hotel/es/hostal-paris.es.html";
    "https://www.booking.com/hotel/es/pension-iznajar-barcelona.es.html";
    "https://www.booking.com/hotel/es/lloret.es.html";
    "https://www.booking.com/hotel/es/hostal-lausanne.es.html";
    "https://www.booking.com/hotel/es/hostal-hera.es.html";
    "https://www.booking.com/hotel/es/hostal-marenostrum.es.html";
    "https://www.booking.com/hotel/es/lyon.es.html";
    "https://www.booking.com/hotel/es/pension-45.es.html";
    "https://www.booking.com/hotel/es/hostal-capitol-ramblas.es.html" ].

(** The body of the loop of [load_barcelona_hostals]. *)
Definition append_new (urls : list string) (url : string) : list string :=
  if url_in url urls then urls else (urls ++ [url])%list.

(** [load_barcelona_hostals] *)
Definition load_barcelona_hostals (st : app_state) : app_state :=
  {| hotel_urls := fold_left append_new barcelona_hostals [];
     all_hotel_data := [];
     new_hotel_url := new_hotel_url st |}.

(** What happens to the state between two runs of the script. *)
Inductive event :=
  | TypeUrl (text : string)
  | AddHotel
  | RemoveHotel (url : string)
  | ClearAll
  | LoadBarcelona
  | Scraped (data : list (gmap string json)).

Definition handle (st : app_state) (ev : event) : app_state :=
  match ev with
  | TypeUrl text =>
      {| hotel_urls := hotel_urls st;
         all_hotel_data := all_hotel_data st;
         new_hotel_url := text |}
  | AddHotel => add_hotel_url st
  | RemoveHotel url => fst (remove_hotel_url st url)
  | ClearAll => clear_all_hotels st
  | LoadBarcelona => load_barcelona_hostals st
  | Scraped data =>
      {| hotel_urls := hotel_urls st;
         all_hotel_data := data;
         new_hotel_url := new_hotel_url st |}
  end.

(** The state of a new session. *)
Definition initial_state : app_state :=
  {| hotel_urls := []; all_hotel_data := []; new_hotel_url := "" |}.

(** A URL list without a duplicate and without the empty string. *)
Definition well_formed (urls : list string) : Prop :=
  NoDup urls /\ "" ∉ urls.

(** * Properties *)

(** ** Normalisation *)

Lemma fgt_lit (x : float) (q : Q) :
  fgt x (lit q) = true <-> exists p, x = Some p /\ (q < p)%Q.
Proof.
  destruct x as [p|]; simpl.
  - rewrite negb_true_iff, <- not_true_iff_false, Qle_bool_iff. split.
    + intros H. exists p. split; [reflexivity | now apply Qnot_le_lt].
    + intros (p' & [= <-] & H). now apply Qlt_not_le.
  - split; [discriminate | intros (p & H & _); discriminate].
Qed.

Lemma normalize_filter (price_data : list RawDayRecord) :
  normalize price_data = map parse_row (List.filter kept price_data).
Proof.
  unfold normalize, filter_available, parse_hotel_prices.
  induction price_data as [|r l IH]; simpl; [reflexivity|].
  fold (kept r). destruct (kept r); simpl; now rewrite IH.
Qed.

Lemma filter_available_idem (df : list Row) :
  filter_available (filter_available df) = filter_available df.
Proof.
  unfold filter_available. induction df as [|r l IH]; simpl; [reflexivity|].
  destruct (fgt (price r) (lit 0.01)) eqn:E; simpl; [|exact IH].
  now rewrite E, IH.
Qed.

Lemma normalize_raw (price_data : list RawDayRecord) :
  map raw (normalize price_data) = List.filter kept price_data.
Proof.
  rewrite normalize_filter, map_map. simpl. apply map_id.
Qed.

Lemma filter_kept_idem (price_data : list RawDayRecord) :
  List.filter kept (List.filter kept price_data) = List.filter kept price_data.
Proof.
  induction price_data as [|r l IH]; simpl; [reflexivity|].
  destruct (kept r) eqn:E; simpl; [|exact IH]. now rewrite E, IH.
Qed.

Lemma normalize_kept (price_data : list RawDayRecord) (row : Row) :
  In row (normalize price_data) ->
  kept (raw row) = true /\ fgt (price row) (lit 0.01) = true.
Proof.
  rewrite normalize_filter, in_map_iff.
  intros (r & <- & Hr). apply filter_In in Hr as [_ Hk]. now split.
Qed.

Lemma normalize_above (price_data : list RawDayRecord) :
  Forall (fun row => exists p, price row = Some p /\ (0.01 < p)%Q)
    (normalize price_data).
Proof.
  apply List.Forall_forall. intros row Hrow.
  apply normalize_kept in Hrow as [_ Hgt]. now apply fgt_lit in Hgt.
Qed.

(** C9.  Normalising a sequence of raw day records keeps, in order and
    unchanged, exactly the records whose price text yields a number above
    0.01: every surviving entry has a price above 0.01; a record whose text
    holds no number, or whose number is not positive, has no entry in the
    result; and normalising the records of a normalised sequence, or
    filtering it again, gives the same sequence. *)
Theorem normalize_invariant (price_data : list RawDayRecord) :
  normalize price_data = map parse_row (List.filter kept price_data)
  /\ Forall (fun row => exists p, price row = Some p /\ (0.01 < p)%Q)
       (normalize price_data)
  /\ (forall r, extract_number (avgPriceFormatted r) = None ->
        forall row, In row (normalize price_data) -> raw row <> r)
  /\ (forall r p, extract_price (avgPriceFormatted r) = Some p -> (p <= 0)%Q ->
        forall row, In row (normalize price_data) -> raw row <> r)
  /\ normalize (map raw (normalize price_data)) = normalize price_data
  /\ filter_available (normalize price_data) = normalize price_data.
Proof.
  pose proof (normalize_kept price_data) as Hin.
  split; [apply normalize_filter|].
  split; [apply normalize_above|].
  split.
  { intros r Hnone row Hrow <-. apply Hin in Hrow as [Hk _].
    unfold kept, extract_price in Hk. rewrite Hnone in Hk. discriminate. }
  split.
  { intros r p Hp Hle row Hrow <-. apply Hin in Hrow as [Hk _].
    unfold kept in Hk. apply fgt_lit in Hk as (p' & Hp' & Hlt).
    rewrite Hp in Hp'. injection Hp' as <-.
    apply (Qlt_not_le _ _ Hlt). eapply Qle_trans; [exact Hle | discriminate]. }
  split.
  { rewrite normalize_raw, !normalize_filter. now rewrite filter_kept_idem. }
  unfold normalize. apply filter_available_idem.
Qed.

(** ** The pricing rules *)

(** Reads a key in a record built by a sequence of assignments. *)
Ltac lookup_assigned :=
  repeat (rewrite lookup_insert_ne by discriminate);
  first [ rewrite lookup_insert_eq; reflexivity | reflexivity ].

Ltac unfold_rules :=
  unfold rules_2_adults, rules_1_adult, privado_2_adults, compartido_2_adults,
    privado_1_adult, compartido_1_adult;
  simpl bool_decide; simpl orb; cbv beta iota zeta.










Lemma process_hostel_data_results hostels sd ed results error_hostels :
  process_hostel_data hostels sd ed = Returned (results, error_hostels) ->
  forall result, In result results ->
  exists hostel, In hostel hostels /\ h_error hostel = None
                 /\ process_hostel sd ed hostel = Next result.
Proof.
  revert results error_hostels.
  induction hostels as [|hostel rest IH]; intros results errs; simpl.
  - intros [= <- <-] result [].
  - destruct (h_error hostel) eqn:Herr.
    + destruct (process_hostel_data rest sd ed) as [[rs es]|] eqn:Hrest; [|discriminate].
      intros [= <- <-] result Hin.
      destruct (IH _ _ eq_refl result Hin) as (h & Hh & He & Hp). eauto.
    + destruct (process_hostel sd ed hostel) as [r| |e] eqn:Hp; [| |discriminate].
      * destruct (process_hostel_data rest sd ed) as [[rs es]|] eqn:Hrest; [|discriminate].
        intros [= <- <-] result [<- | Hin]; [eauto|].
        destruct (IH _ _ eq_refl result Hin) as (h & Hh & He & Hp'). eauto.
      * intros Hrest result Hin.
        destruct (IH _ _ Hrest result Hin) as (h & Hh & He & Hp'). eauto.
Qed.



(** ** The worked example of the specification *)

Example private_1_adult_key_example :
  private_1_adult_key "Precio Sin Tasa Privado 1 Adulto" = true
  /\ private_1_adult_key "Precio Sin Tasa Compartido 1 Adulto" = false
  /\ private_1_adult_key "Precio Sin Tasa Privado 2 Adultos" = false.
Proof. repeat split. Qed.

(** The record computed for [private_101] on its day. *)
Lemma private_101_record :
  exists r, process_hostel_data [private_101] (Some 739000%Z) None = Returned ([r], [])
    /\ r !! "Precio Hab Baño Privado 2 Adultos" = Some (VNum (lit 101.00))
    /\ r !! "Precio Hab Baño Compartido 2 Adultos" = Some (VNum (lit 80.80))
    /\ r !! "Precio Sin Tasa Privado 2 Adultos" = Some (VNum (lit 82.80))
    /\ r !! "Precio Sin Tasa Compartido 2 Adultos" = Some (VNum (lit 64.22)).
Proof. eexists. split; [reflexivity|]. repeat split. Qed.

(** In binary64 the three amounts round to the same numbers of cents. *)
Lemma private_101_binary64 :
  Binary64.cents (Binary64.shared_of_private Binary64.price_101) = Some 8080%Z
  /\ Binary64.cents
       (Binary64.precio_sin_tasa_final Binary64.price_101 Binary64.tax_2_adults)
     = Some 8280%Z
  /\ Binary64.cents
       (Binary64.precio_sin_tasa_final
          (Binary64.shared_of_private Binary64.price_101) Binary64.tax_2_adults)
     = Some 6422%Z.
Proof. repeat split; vm_compute; reflexivity. Qed.

Lemma private_101_rules (result : gmap string value) :
  let r := rules_2_adults (Some "Privado") (lit 101) result in
  r !! "Precio Hab Baño Compartido 2 Adultos" = Some (VNum (lit 80.80))
  /\ r !! "Precio Sin Tasa Privado 2 Adultos" = Some (VNum (lit 82.80))
  /\ r !! "Precio Sin Tasa Compartido 2 Adultos" = Some (VNum (lit 64.22)).
Proof. unfold_rules. repeat split; lookup_assigned. Qed.

(** C1, as the code computes it.  For a ['Privado'] property whose
    representative price is 101, the 2-adult record holds the shared room
    price 80.80, the private final price 82.80 and the shared final price
    64.22 (the amount before rounding is 64.216): whatever the record held
    before the rules ran, in the record [process_hostel_data] returns for
    [private_101], and when the arithmetic is done in binary64. *)
Theorem private_101_derived :
  (forall result : gmap string value,
     let r := rules_2_adults (Some "Privado") (lit 101) result in
     r !! "Precio Hab Baño Compartido 2 Adultos" = Some (VNum (lit 80.80))
     /\ r !! "Precio Sin Tasa Privado 2 Adultos" = Some (VNum (lit 82.80))
     /\ r !! "Precio Sin Tasa Compartido 2 Adultos" = Some (VNum (lit 64.22)))
  /\ (exists r,
       process_hostel_data [private_101] (Some 739000%Z) None = Returned ([r], [])
       /\ r !! "Precio Hab Baño Compartido 2 Adultos" = Some (VNum (lit 80.80))
       /\ r !! "Precio Sin Tasa Privado 2 Adultos" = Some (VNum (lit 82.80))
       /\ r !! "Precio Sin Tasa Compartido 2 Adultos" = Some (VNum (lit 64.22)))
  /\ Binary64.cents
       (Binary64.precio_sin_tasa_final
          (Binary64.shared_of_private Binary64.price_101) Binary64.tax_2_adults)
     = Some 6422%Z.
Proof.
  split; [exact private_101_rules|]. split.
  - destruct private_101_record as (r & Hrun & _ & H1 & H2 & H3).
    exists r. auto.
  - apply private_101_binary64.
Qed.

(** C1, as the specification states it: the shared final price is not
    64.18. *)
Lemma private_101_shared_final_not_64_18 :
  rules_2_adults (Some "Privado") (lit 101) ∅
    !! "Precio Sin Tasa Compartido 2 Adultos" <> Some (VNum (lit 64.18)).
Proof.
  rewrite (proj2 (proj2 (private_101_rules ∅))). discriminate.
Qed.

(** ** Representative price *)





Lemma dropna_priced (rows : list Row) :
  priced rows -> map Some (dropna (map price rows)) = map price rows.
Proof.
  induction 1 as [|row rows (p & Hp) _ IH]; simpl; [reflexivity|].
  rewrite Hp. simpl. now rewrite IH.
Qed.


Lemma series_mean_spec (rows : list Row) :
  priced rows -> rows <> [] ->
  exists mean prices, series_mean (map price rows) = Some mean
    /\ map Some prices = map price rows
    /\ (mean * inject_Z (Z.of_nat (length rows)) == Qsum prices)%Q.
Proof.
  intros Hp Hne. pose proof (dropna_priced rows Hp) as Hd.
  unfold series_mean. destruct (dropna (map price rows)) as [|x xs] eqn:E.
  - destruct rows; [congruence | discriminate].
  - eexists _, (x :: xs). split; [reflexivity|]. split; [exact Hd|].
    assert (length rows = length (x :: xs)) as ->.
    { rewrite <- (length_map price), <- Hd. now rewrite length_map. }
    set (total := Qsum (x :: xs)).
    set (n := inject_Z (Z.of_nat (length (x :: xs)))).
    assert (~ (n == 0)%Q) as Hn.
    { unfold n. change 0%Q with (inject_Z 0). rewrite inject_Z_injective.
      simpl length. lia. }
    field. exact Hn.
Qed.


(** The block on a single date. *)
Lemma price_block_single k_days k_total rules d end_date data result :
  is_date_range (Some d) end_date = false ->
  price_block k_days k_total rules (Some d) end_date data result
  = single_date_rule rules d data result.
Proof.
  intros Hr. unfold price_block, single_date_rule. rewrite Hr.
  destruct data as [[|r l]|]; try reflexivity.
  unfold normalize. set (df := parse_hotel_prices (r :: l)).
  assert (df <> []) as Hdf by discriminate.
  destruct df as [|row df']; [congruence|].
  destruct (filter_available (row :: df')) as [|row' rows]; [reflexivity|].
  destruct (filter_date d (row' :: rows)); reflexivity.
Qed.


Lemma rules_2_adults_day_keys ty P (result : gmap string value) :
  rules_2_adults ty P result !! "Días con Disponibilidad"
    = result !! "Días con Disponibilidad"
  /\ rules_2_adults ty P result !! "Total Días en Rango"
    = result !! "Total Días en Rango".
Proof.
  unfold rules_2_adults, privado_2_adults, compartido_2_adults.
  repeat case_match; cbv zeta; split; lookup_assigned.
Qed.





(** ** An end date equal to the selected date *)




(** ** A block that executes [continue] *)

(** C2, on the code.  [sold_out_for_two] has no price above 0.01 for 2
    adults and a price for 1 adult: [process_hostel_data] returns no record
    for it, and does not list it among the errors either; likewise
    [sold_out_for_one], whose 2-adult prices were already computed.  When
    the 2-adult list is empty from the start ([no_days_for_two]) the record
    is returned, with the 1-adult prices. *)
Theorem continue_drops_the_property :
  process_hostel_data [sold_out_for_two] (Some 739000%Z) None = Returned ([], [])
  /\ process_hostel_data [sold_out_for_one] (Some 739000%Z) None = Returned ([], [])
  /\ (exists r,
       process_hostel_data [no_days_for_two] (Some 739000%Z) None = Returned ([r], [])
       /\ r !! "Precio Hab Baño Compartido 1 Adulto" = Some (VNum (lit 40.00))
       /\ r !! "Precio Sin Tasa Compartido 1 Adulto" = Some (VNum (lit 31.74))
       /\ r !! "Precio Hab Baño Compartido 2 Adultos" = None
       /\ r !! "Error" = None).
Proof.
  split; [reflexivity|]. split; [reflexivity|].
  eexists. split; [reflexivity|]. repeat split.
Qed.

(** ** The availability query *)

Lemma price_n_days_min (start_date : Z) (end_date : option Z) :
  price_n_days start_date end_date
  = Z.min (match end_date with Some e => e - start_date + 1 | None => 1 end) 30.
Proof.
  unfold price_n_days. destruct (Z.ltb_spec 30
    (match end_date with Some e => e - start_date + 1 | None => 1 end)); lia.
Qed.

Lemma scrape_prices_calls session hotel_name hotel_country csrf_token num_adults
    start_date end_date :
  fst (scrape_prices session hotel_name hotel_country csrf_token num_adults
         start_date end_date)
  = [POST {| countryCode := hotel_country;
             pagename := hotel_name;
             startDate := start_date;
             amountOfDays := price_n_days start_date end_date;
             nbAdults := num_adults;
             nbRooms := 1;
             x_booking_csrf_token := csrf_token |}].
Proof. reflexivity. Qed.

Lemma scrape_hostel_calls session start_date end_date hostel :
  Forall (fun c => forall n, days_requested c = Some n ->
                   n = price_n_days start_date end_date)
    (fst (scrape_hostel session start_date end_date hostel)).
Proof.
  unfold scrape_hostel.
  destruct (String.eqb (hostel_url hostel) ""); [constructor|].
  destruct (get session (hostel_url hostel)) as [e | status_code page].
  - repeat constructor. discriminate.
  - destruct (negb (status_code =? 200)%Z).
    + repeat constructor. discriminate.
    + unfold scrape_page, scrape_prices. simpl.
      repeat constructor; simpl; congruence.
Qed.

(** C8.  The availability query asks for [min(dayspan, 30)] days, where
    [dayspan] is [(end_date - start_date).days + 1] with an end date and 1
    without: [scrape_prices] sends one query with that day count, a range
    of more than 30 days asks for exactly 30, and both queries
    [scrape_hostel] sends carry that count. *)
Theorem amount_of_days_capped (session : Session)
    (hotel_name hotel_country csrf_token : string) (num_adults : Z)
    (start_date : Z) (end_date : option Z) :
  let dayspan := match end_date with Some e => (e - start_date + 1)%Z | None => 1%Z end in
  (exists query,
     fst (scrape_prices session hotel_name hotel_country csrf_token num_adults
            start_date end_date) = [POST query]
     /\ amountOfDays query = Z.min dayspan 30
     /\ startDate query = start_date
     /\ nbAdults query = num_adults)
  /\ ((30 < dayspan)%Z -> price_n_days start_date end_date = 30%Z)
  /\ (forall hostel,
       Forall (fun c => forall n, days_requested c = Some n -> n = Z.min dayspan 30)
         (fst (scrape_hostel session start_date end_date hostel))).
Proof.
  intros dayspan. subst dayspan. split; [|split].
  - eexists. split; [apply scrape_prices_calls|]. simpl.
    split; [apply price_n_days_min | split; reflexivity].
  - intros H. rewrite price_n_days_min. lia.
  - intros hostel. rewrite <- price_n_days_min. apply scrape_hostel_calls.
Qed.










(** ** The batch *)

Section Gather.
Context {T R : Type} (run : T -> R) (tasks : list T).

Lemma complete_length (slots : list (option R)) (i : nat) :
  length (complete run tasks slots i) = length slots.
Proof.
  unfold complete. destruct (tasks !! i); [apply length_insert | reflexivity].
Qed.

Lemma complete_fold_length (order : list nat) (slots : list (option R)) :
  length (fold_left (complete run tasks) order slots) = length slots.
Proof.
  revert slots. induction order as [|j order IH]; intros slots; simpl; [reflexivity|].
  now rewrite IH, complete_length.
Qed.

(** A filled slot keeps its value: a task writes its own slot only, and
    always the value it returns. *)
Lemma complete_keeps (slots : list (option R)) (i j : nat) (t : T) :
  tasks !! i = Some t ->
  slots !! i = Some (Some (run t)) ->
  complete run tasks slots j !! i = Some (Some (run t)).
Proof.
  intros Ht Hs. unfold complete. destruct (tasks !! j) as [t'|] eqn:Hj; [|exact Hs].
  destruct (decide (j = i)) as [-> | Hne].
  - rewrite Ht in Hj. injection Hj as <-.
    apply list_lookup_insert_eq. now apply lookup_lt_Some in Hs.
  - now rewrite list_lookup_insert_ne.
Qed.

Lemma complete_fold_keeps (order : list nat) (slots : list (option R)) (i : nat) (t : T) :
  tasks !! i = Some t ->
  slots !! i = Some (Some (run t)) ->
  fold_left (complete run tasks) order slots !! i = Some (Some (run t)).
Proof.
  intros Ht. revert slots.
  induction order as [|j order IH]; intros slots Hs; simpl; [exact Hs|].
  apply IH. now apply complete_keeps.
Qed.

(** Once the task at [i] has completed, its slot holds its value. *)
Lemma complete_fold_lookup (order : list nat) (slots : list (option R)) (i : nat) (t : T) :
  length slots = length tasks ->
  tasks !! i = Some t ->
  i ∈ order ->
  fold_left (complete run tasks) order slots !! i = Some (Some (run t)).
Proof.
  intros Hlen Ht. revert slots Hlen.
  induction order as [|j order IH]; intros slots Hlen Hin; simpl.
  - now apply elem_of_nil in Hin.
  - destruct (decide (i = j)) as [<- | Hne].
    + apply complete_fold_keeps; [exact Ht|].
      unfold complete. rewrite Ht. apply list_lookup_insert_eq.
      rewrite Hlen. now apply lookup_lt_Some in Ht.
    + apply IH; [now rewrite complete_length|].
      apply elem_of_cons in Hin as [? | ?]; [congruence | assumption].
Qed.

(** When every task completes, in whatever order, [gather] returns the
    values of the tasks in the order of the tasks. *)
Lemma gather_all (order : list nat) :
  (forall i, i < length tasks -> i ∈ order) ->
  gather run tasks order = Some (map run tasks).
Proof.
  intros Hall. unfold gather.
  assert (fold_left (complete run tasks) order (replicate (length tasks) None)
          = Some <$> map run tasks) as ->.
  { apply list_eq. intros i.
    destruct (tasks !! i) as [t|] eqn:Ht.
    - rewrite (complete_fold_lookup order _ i t).
      + rewrite list_lookup_fmap. change (map run tasks) with (run <$> tasks).
        now rewrite list_lookup_fmap, Ht.
      + apply length_replicate.
      + exact Ht.
      + apply Hall. now apply lookup_lt_Some in Ht.
    - apply lookup_ge_None in Ht.
      rewrite (proj2 (lookup_ge_None _ _)), (proj2 (lookup_ge_None _ _)); [reflexivity| |].
      + now rewrite length_fmap, length_map.
      + now rewrite complete_fold_length, length_replicate. }
  now apply mapM_fmap_Some.
Qed.

End Gather.

Lemma scrape_hostel_get_raises session start_date end_date hostel e :
  hostel_url hostel <> "" ->
  get session (hostel_url hostel) = GetRaises e ->
  snd (scrape_hostel session start_date end_date hostel)
  = error_record hostel (hostel_url hostel) (str e).
Proof.
  intros Hurl Hget. unfold scrape_hostel.
  apply String.eqb_neq in Hurl. rewrite Hurl, Hget. reflexivity.
Qed.

(** C7.  For every list of properties and every order in which the tasks
    complete (a permutation of their positions), [scrape_hotels] returns a
    list of the same length whose i-th element is the dict [scrape_hostel]
    returns for the i-th property: it depends on that property and on the
    remote answers only, not on the other properties of the batch.  A
    property whose landing page cannot be fetched gets, at its own
    position, the error record made of its name, type and URL and of the
    text of the exception. *)
Theorem scrape_hotels_in_input_order (hostels : list (gmap string string))
    (session : Session) (start_date : Z) (end_date : option Z) (order : list nat)
    (Horder : order ≡ₚ seq 0 (length hostels)) :
  exists hostels_data,
    scrape_hotels hostels session start_date end_date order = Some hostels_data
    /\ length hostels_data = length hostels
    /\ (forall i hostel, hostels !! i = Some hostel ->
          hostels_data !! i
          = Some (snd (scrape_hostel session start_date end_date hostel)))
    /\ (forall i hostel e, hostels !! i = Some hostel ->
          hostel_url hostel <> "" ->
          get session (hostel_url hostel) = GetRaises e ->
          hostels_data !! i
          = Some (error_record hostel (hostel_url hostel) (str e)))
    /\ (forall hostels' order', order' ≡ₚ seq 0 (length hostels') ->
          forall i, hostels' !! i = hostels !! i ->
          (scrape_hotels hostels' session start_date end_date order'
             ≫= fun data' => data' !! i)
          = hostels_data !! i).
Proof.
  assert (forall (l : list (gmap string string)) (o : list nat),
            o ≡ₚ seq 0 (length l) ->
            scrape_hotels l session start_date end_date o
            = Some (map (fun h => snd (scrape_hostel session start_date end_date h)) l))
    as Hrun.
  { intros l o Ho. apply gather_all. intros i Hi. rewrite Ho.
    apply elem_of_seq. lia. }
  assert (forall (l : list (gmap string string)) i,
            map (fun h => snd (scrape_hostel session start_date end_date h)) l !! i
            = (fun h => snd (scrape_hostel session start_date end_date h)) <$> l !! i)
    as Hlookup.
  { intros l i. apply (list_lookup_fmap _ l i). }
  eexists. split; [apply Hrun, Horder|].
  split; [apply length_map|]. split; [|split].
  - intros i hostel Hi. now rewrite Hlookup, Hi.
  - intros i hostel e Hi Hurl Hget. rewrite Hlookup, Hi. simpl.
    now rewrite (scrape_hostel_get_raises _ _ _ _ e).
  - intros hostels' order' Horder' i Hi.
    rewrite (Hrun _ _ Horder'). simpl. now rewrite !Hlookup, Hi.
Qed.

(** [scrape_hotels_in_input_order] on [sample_batch], the third task
    completing first: the three entries come back in the order of the
    batch, the second and the third as error records. *)
Lemma scrape_hotels_sample_batch :
  [2; 0; 1] ≡ₚ seq 0 (length sample_batch)
  /\ exists hostels_data,
       scrape_hotels sample_batch sample_session 739000 None [2; 0; 1]
       = Some hostels_data
       /\ map h_name hostels_data
          = [Some "hostel-one"; Some "Hostel Two"; Some "Hostel Three"]
       /\ map h_error hostels_data
          = [None; Some "All connection attempts failed"; Some "Missing URL"].
Proof.
  assert ([2; 0; 1] ≡ₚ seq 0 (length sample_batch)) as Horder.
  { simpl. etransitivity; [apply perm_swap|]. apply perm_skip, perm_swap. }
  split; [exact Horder|].
  destruct (scrape_hotels_in_input_order sample_batch sample_session 739000 None
              [2; 0; 1] Horder) as (hostels_data & Hrun & _ & Hith & _).
  exists hostels_data. split; [exact Hrun|].
  pose proof (Hith 0%nat _ eq_refl) as H0.
  pose proof (Hith 1%nat _ eq_refl) as H1.
  pose proof (Hith 2%nat _ eq_refl) as H2.
  apply length_mapM in Hrun. rewrite complete_fold_length, length_replicate in Hrun.
  destruct hostels_data as [|d0 [|d1 [|d2 [|d3 rest]]]]; try discriminate.
  injection H0 as ->. injection H1 as ->. injection H2 as ->.
  split; reflexivity.
Defined.

(** * Further properties of the code *)

(** ** One property: [scrape_hostel] *)

Lemma hostel_url_empty (hostel : gmap string string) :
  hostel_url hostel = ""
  <-> hostel !! "url" = Some ""
      \/ (hostel !! "url" = None
          /\ (hostel !! "link" = None \/ hostel !! "link" = Some "")).
Proof.
  unfold hostel_url.
  destruct (hostel !! "url") as [u|]; simpl.
  - split; [intros ->; now left | intros [[= ->] | [[=] _]]; reflexivity].
  - destruct (hostel !! "link") as [l|]; simpl.
    + split; [intros ->; right; split; [reflexivity | now right]|].
      intros [[=] | [_ [[=] | [= ->]]]]. reflexivity.
    + split; [intros _; right; split; [reflexivity | now left] | reflexivity].
Qed.

(** X1.  A property without an address makes no network call and gets the
    ['Missing URL'] error record.  The address is missing when the ['url']
    key holds the empty string, whatever ['link'] holds, or when ['url'] is
    absent and ['link'] is absent or empty.  With an address, the first
    call is the GET of that address. *)
Theorem missing_url_makes_no_call (session : Session) (start_date : Z)
    (end_date : option Z) (hostel : gmap string string) :
  (hostel_url hostel = ""
   <-> hostel !! "url" = Some ""
       \/ (hostel !! "url" = None
           /\ (hostel !! "link" = None \/ hostel !! "link" = Some "")))
  /\ (hostel_url hostel = "" ->
      scrape_hostel session start_date end_date hostel
      = ([], error_record hostel "" "Missing URL"))
  /\ (hostel_url hostel <> "" ->
      exists calls,
        fst (scrape_hostel session start_date end_date hostel)
        = GET (hostel_url hostel) :: calls).
Proof.
  split; [apply hostel_url_empty|]. split.
  - intros H. unfold scrape_hostel. now rewrite H.
  - intros H. unfold scrape_hostel. apply String.eqb_neq in H. rewrite H.
    destruct (get session (hostel_url hostel)) as [e | status_code page]; [eauto|].
    destruct (negb (status_code =? 200)%Z); [eauto|].
    destruct (scrape_page session start_date end_date hostel page). eauto.
Qed.

(** X2.  A landing page answered with a status other than 200 (another
    2xx status included) gives the error record ['HTTP status N'] after
    that single GET: no availability query is sent. *)
Theorem landing_page_status_not_200 (session : Session) (start_date : Z)
    (end_date : option Z) (hostel : gmap string string)
    (status_code : Z) (page : landing_page)
    (Hurl : hostel_url hostel <> "")
    (Hget : get session (hostel_url hostel) = GetResponse status_code page)
    (Hstatus : status_code <> 200%Z) :
  scrape_hostel session start_date end_date hostel
  = ([GET (hostel_url hostel)],
     error_record hostel (hostel_url hostel) ("HTTP status " ++ pretty status_code)).
Proof.
  unfold scrape_hostel. apply String.eqb_neq in Hurl. rewrite Hurl, Hget.
  apply Z.eqb_neq in Hstatus. now rewrite Hstatus.
Qed.

(** [landing_page_status_not_200] on the first property of [sample_batch],
    answered with status 204. *)
Lemma landing_page_status_204 :
  exists hostel, sample_batch !! 0%nat = Some hostel
    /\ snd (scrape_hostel no_content_session 739000 None hostel)
       = error_record hostel "https://www.booking.com/hotel/es/hostel-one.html"
           "HTTP status 204".
Proof.
  eexists. split; [reflexivity|].
  rewrite (landing_page_status_not_200 no_content_session 739000 None _ 204
             hostel_one_page); [reflexivity | discriminate | reflexivity | discriminate].
Defined.



(** X4.  [scrape_hostel] makes at most three calls.  Its record carries an
    ['error'] key exactly when no availability query was sent; without that
    key, exactly three calls were made. *)
Theorem error_key_means_no_query (session : Session) (start_date : Z)
    (end_date : option Z) (hostel : gmap string string) :
  let run := scrape_hostel session start_date end_date hostel in
  (is_Some (h_error (snd run))
   <-> Forall (fun c => days_requested c = None) (fst run))
  /\ (length (fst run) <= 3)%nat
  /\ (h_error (snd run) = None -> length (fst run) = 3%nat).
Proof.
  cbv zeta. unfold scrape_hostel.
  destruct (String.eqb (hostel_url hostel) "").
  { simpl. repeat split; eauto; try lia; try discriminate. }
  destruct (get session (hostel_url hostel)) as [e | status_code page].
  { simpl. repeat split; eauto; try lia; try discriminate; repeat constructor. }
  destruct (negb (status_code =? 200)%Z).
  { simpl. repeat split; eauto; try lia; try discriminate; repeat constructor. }
  simpl. split; [|split; [lia | reflexivity]]. split.
  - intros [x Hx]. discriminate.
  - intros H. apply Forall_cons in H as [_ H]. apply Forall_cons in H as [H _].
    discriminate.
Qed.

(** ** The loop of [process_hostel_data] *)

(** X5.  When [process_hostel_data] returns, [error_hostels] holds exactly
    the input dicts that carry an ['error'] key, in input order; [results]
    holds one record for each property of a sub-sequence of the others, in
    input order; and no property is counted twice. *)
Theorem results_and_errors_partition
    (hostels_data : list (hostel_dict (list RawDayRecord)))
    (selected_date end_date : option Z)
    (results : list (gmap string value))
    (error_hostels : list (hostel_dict (list RawDayRecord)))
    (Hrun : process_hostel_data hostels_data selected_date end_date
            = Returned (results, error_hostels)) :
  error_hostels = List.filter has_error hostels_data
  /\ (exists processed,
       sublist processed (List.filter (fun h => negb (has_error h)) hostels_data)
       /\ Forall2 (fun hostel result =>
                    process_hostel selected_date end_date hostel = Next result)
            processed results)
  /\ (length results + length error_hostels <= length hostels_data)%nat.
Proof.
  revert results error_hostels Hrun.
  induction hostels_data as [|hostel rest IH]; intros results errs; simpl.
  - intros [= <- <-]. split; [reflexivity|]. split; [|simpl; lia].
    exists []. split; constructor.
  - destruct (h_error hostel) as [msg|] eqn:Herr.
    + assert (has_error hostel = true) as -> by (unfold has_error; now rewrite Herr).
      simpl.
      destruct (process_hostel_data rest selected_date end_date) as [[rs es]|];
        [|discriminate].
      intros [= <- <-]. destruct (IH _ _ eq_refl) as (-> & (pr & Hsub & Hall) & Hlen).
      split; [reflexivity|]. split; [eauto|]. cbn [length]. lia.
    + assert (has_error hostel = false) as -> by (unfold has_error; now rewrite Herr).
      simpl.
      destruct (process_hostel selected_date end_date hostel) as [r| |e] eqn:Hp;
        [| |discriminate].
      * destruct (process_hostel_data rest selected_date end_date) as [[rs es]|];
          [|discriminate].
        intros [= <- <-]. destruct (IH _ _ eq_refl) as (-> & (pr & Hsub & Hall) & Hlen).
        split; [reflexivity|]. split; [|cbn [length]; lia].
        exists (hostel :: pr). split; [now apply sublist_skip | now constructor].
      * intros Hrest. destruct (IH _ _ Hrest) as (-> & (pr & Hsub & Hall) & Hlen).
        split; [reflexivity|]. split; [|cbn [length]; lia].
        exists pr. split; [now apply sublist_cons | exact Hall].
Qed.

(** [results_and_errors_partition] on a batch of four scraped properties:
    one record, one error, two properties dropped. *)
Lemma results_and_errors_sample :
  exists results error_hostels,
    process_hostel_data [sold_out_for_two; failed_fetch; private_101; sold_out_for_one]
      (Some 739000%Z) None = Returned (results, error_hostels)
    /\ error_hostels = [failed_fetch]
    /\ length results = 1%nat.
Proof.
  eexists _, _. split; [reflexivity|].
  destruct (results_and_errors_partition
              [sold_out_for_two; failed_fetch; private_101; sold_out_for_one]
              (Some 739000%Z) None _ _ eq_refl) as (Herr & _ & _).
  split; [exact Herr | reflexivity].
Defined.




(** ** The shape of a result record *)

Ltac in_listed_keys :=
  cbv [In keys_2_adults keys_1_adult day_count_keys];
  repeat first [ left; reflexivity | right ].

(** The 2-adult rules assign no key outside [keys_2_adults]. *)
Lemma rules_2_adults_frame ty P (result : gmap string value) (key : string) :
  ~ In key keys_2_adults ->
  rules_2_adults ty P result !! key = result !! key.
Proof.
  intros H. unfold rules_2_adults, privado_2_adults, compartido_2_adults.
  repeat case_match; cbv zeta;
    repeat (rewrite lookup_insert_ne; [|intros <-; apply H; in_listed_keys]);
    reflexivity.
Qed.

(** The 1-adult rules assign no key outside [keys_1_adult]. *)
Lemma rules_1_adult_frame ty P (result : gmap string value) (key : string) :
  ~ In key keys_1_adult ->
  rules_1_adult ty P result !! key = result !! key.
Proof.
  intros H. unfold rules_1_adult, privado_1_adult, compartido_1_adult.
  repeat case_match; cbv zeta;
    repeat (rewrite lookup_insert_ne; [|intros <-; apply H; in_listed_keys]);
    reflexivity.
Qed.

(** A block that falls through changed no key but those of its rules and
    its two day counts. *)
Lemma price_block_frame k_days k_total rules sd ed data result result' key :
  (forall P r, rules P r !! key = r !! key) ->
  key <> k_days -> key <> k_total ->
  price_block k_days k_total rules sd ed data result = Next result' ->
  result' !! key = result !! key.
Proof.
  intros Hrules Hd Ht. unfold price_block.
  repeat case_match; intros [= <-]; try reflexivity; rewrite Hrules;
    try reflexivity; now rewrite !lookup_insert_ne by congruence.
Qed.

Lemma has_price_key_spec (result : gmap string value) :
  has_price_key result = true
  <-> exists key v, result !! key = Some v /\ String.prefix "Precio" key = true.
Proof.
  unfold has_price_key. rewrite existsb_exists. split.
  - intros ([key v] & Hin & Hp). exists key, v. split; [|exact Hp].
    apply elem_of_map_to_list. now apply list_elem_of_In.
  - intros (key & v & Hl & Hp). exists (key, v). split; [|exact Hp].
    apply list_elem_of_In. now apply elem_of_map_to_list.
Qed.

Lemma block_2_adults_frame sd ed hostel result result' key :
  ~ In key keys_2_adults ->
  key <> "Días con Disponibilidad" -> key <> "Total Días en Rango" ->
  block_2_adults sd ed hostel result = Next result' ->
  result' !! key = result !! key.
Proof.
  intros Hk Hd Ht Hb. unfold block_2_adults in Hb.
  eapply price_block_frame; [| | |exact Hb]; try assumption.
  intros P r. now apply rules_2_adults_frame.
Qed.

Lemma block_1_adult_frame sd ed hostel result result' key :
  ~ In key keys_1_adult ->
  key <> "Días con Disponibilidad 1A" -> key <> "Total Días en Rango 1A" ->
  block_1_adult sd ed hostel result = Next result' ->
  result' !! key = result !! key.
Proof.
  intros Hk Hd Ht Hb. unfold block_1_adult in Hb.
  eapply price_block_frame; [| | |exact Hb]; try assumption.
  intros P r. now apply rules_1_adult_frame.
Qed.

Ltac not_in_listed_keys :=
  cbv [In keys_2_adults keys_1_adult day_count_keys];
  let H := fresh in
  intros H; repeat (destruct H as [H|H]; [discriminate|]); exact H.

Lemma process_hostel_frame sd ed hostel result key :
  ~ In key keys_2_adults -> ~ In key keys_1_adult -> ~ In key day_count_keys ->
  key <> "Error" ->
  process_hostel sd ed hostel = Next result ->
  result !! key = initial_result hostel !! key.
Proof.
  intros H2 H1 Hd He. unfold process_hostel.
  destruct (block_2_adults sd ed hostel (initial_result hostel)) as [r2| |] eqn:E2;
    try discriminate.
  destruct (block_1_adult sd ed hostel r2) as [r1| |] eqn:E1; try discriminate.
  intros [= <-].
  assert (r1 !! key = initial_result hostel !! key) as <-.
  { rewrite (block_1_adult_frame _ _ _ _ _ key H1) with (3 := E1),
            (block_2_adults_frame _ _ _ _ _ key H2) with (3 := E2);
      [reflexivity | | | |]; intros ->; apply Hd; in_listed_keys. }
  unfold mark_no_prices. destruct (has_price_key r1); [reflexivity|].
  now rewrite lookup_insert_ne.
Qed.

Lemma process_hostel_error_key sd ed hostel result :
  process_hostel sd ed hostel = Next result ->
  (has_price_key result = true /\ result !! "Error" = None)
  \/ (has_price_key result = false /\ result !! "Error" = Some no_pricing_data).
Proof.
  unfold process_hostel.
  destruct (block_2_adults sd ed hostel (initial_result hostel)) as [r2| |] eqn:E2;
    try discriminate.
  destruct (block_1_adult sd ed hostel r2) as [r1| |] eqn:E1; try discriminate.
  intros [= <-].
  assert (r1 !! "Error" = None) as Hnone.
  { rewrite (block_1_adult_frame _ _ _ _ _ "Error") with (4 := E1),
            (block_2_adults_frame _ _ _ _ _ "Error") with (4 := E2);
      try discriminate; try not_in_listed_keys. reflexivity. }
  unfold mark_no_prices. destruct (has_price_key r1) eqn:Hp.
  - left. now split.
  - right. split; [|apply lookup_insert_eq].
    apply not_true_iff_false. intros H. apply has_price_key_spec in H
      as (key & v & Hl & Hpre).
    destruct (decide (key = "Error")) as [-> | Hne]; [discriminate|].
    rewrite lookup_insert_ne in Hl by congruence.
    apply not_true_iff_false in Hp. apply Hp, has_price_key_spec. eauto.
Qed.

(** X7.  Every record [process_hostel_data] returns holds the name, type
    and URL of its property as the loop first set them (original name
    before scraped name, with the defaults of the code), and either holds a
    key that starts with ['Precio'] or carries the ['Error'] marker, never
    both. *)
Theorem result_record_shape
    (hostels_data : list (hostel_dict (list RawDayRecord)))
    (selected_date end_date : option Z)
    (results : list (gmap string value))
    (error_hostels : list (hostel_dict (list RawDayRecord)))
    (Hrun : process_hostel_data hostels_data selected_date end_date
            = Returned (results, error_hostels)) :
  Forall (fun result =>
    (exists hostel, In hostel hostels_data /\ h_error hostel = None
       /\ result !! "Nombre Hotel"
          = Some (VStr (default (default "Unknown Hotel" (h_name hostel))
                          (h_original_name hostel)))
       /\ result !! "Tipo" = Some (VStr (default "Unknown Type" (h_type hostel)))
       /\ result !! "URL" = Some (VStr (default "" (h_url hostel))))
    /\ ((has_price_key result = true /\ result !! "Error" = None)
        \/ (has_price_key result = false
            /\ result !! "Error" = Some no_pricing_data)))
    results.
Proof.
  apply List.Forall_forall. intros result Hin.
  destruct (process_hostel_data_results _ _ _ _ _ Hrun result Hin)
    as (hostel & Hh & Herr & Hp).
  split; [|exact (process_hostel_error_key _ _ _ _ Hp)].
  exists hostel. split; [exact Hh|]. split; [exact Herr|].
  assert (forall key, In key ["Nombre Hotel"; "Tipo"; "URL"] ->
            result !! key = initial_result hostel !! key) as Hbase.
  { intros key Hkey.
    apply (fun a b c d => process_hostel_frame _ _ _ _ key a b c d Hp);
      cbv [In keys_2_adults keys_1_adult day_count_keys]; simpl in Hkey;
      intuition (subst; discriminate). }
  rewrite !Hbase by (simpl; tauto). unfold initial_result.
  repeat split; lookup_assigned.
Qed.

(** [result_record_shape] on a batch with a priced property and one of
    unknown type. *)
Lemma result_record_shape_sample :
  exists priced_record marked,
    process_hostel_data [private_101; unknown_type] (Some 739000%Z) None
      = Returned ([priced_record; marked], [])
    /\ priced_record !! "Error" = None
    /\ marked !! "Error" = Some no_pricing_data
    /\ marked !! "Nombre Hotel" = Some (VStr "Hostel Five").
Proof.
  eexists _, _. split; [reflexivity|].
  pose proof (result_record_shape [private_101; unknown_type] (Some 739000%Z) None
                _ _ eq_refl) as H.
  apply Forall_cons in H as [_ H]. apply Forall_cons in H as [[_ Hmark] _].
  split; [reflexivity|]. split; [|reflexivity].
  destruct Hmark as [[Hp _] | [_ He]]; [|exact He].
  exfalso. revert Hp. vm_compute. discriminate.
Defined.

(** The pricing rules leave the record of a property of another type as
    it is. *)
Lemma rules_unknown_type (ty : option string) (P : float)
    (result : gmap string value) :
  (forall known, In known known_types -> ty <> Some known) ->
  rules_2_adults ty P result = result /\ rules_1_adult ty P result = result.
Proof.
  intros H. unfold rules_2_adults, rules_1_adult.
  rewrite !bool_decide_eq_false_2; [split; reflexivity | | | |];
    apply H; cbv [In known_types]; tauto.
Qed.

Lemma single_date_rule_frame rules d data result result' key :
  (forall P r, rules P r !! key = r !! key) ->
  single_date_rule rules d data result = Next result' ->
  result' !! key = result !! key.
Proof.
  intros Hrules. unfold single_date_rule.
  repeat case_match; intros [= <-]; try reflexivity; apply Hrules.
Qed.

(** X8.  A property whose type is none of ['Privado'], ['Compartido'],
    ['Híbrido'], ['Hibrido'] (a missing type included) gets no price: both
    sets of pricing rules leave the record unchanged, and the record
    returned for it, whatever its price lists, carries the ['Error']
    marker. *)
Theorem unknown_type_gets_no_price (hostel : hostel_dict (list RawDayRecord))
    (Htype : forall known, In known known_types -> h_type hostel <> Some known) :
  (forall P result,
     rules_2_adults (h_type hostel) P result = result
     /\ rules_1_adult (h_type hostel) P result = result)
  /\ (forall selected_date end_date result,
        process_hostel selected_date end_date hostel = Next result ->
        result !! "Error" = Some no_pricing_data
        /\ forall key, String.prefix "Precio" key = true -> result !! key = None).
Proof.
  split; [intros P result; now apply rules_unknown_type|].
  intros sd ed result Hp.
  assert (forall key, String.prefix "Precio" key = true -> result !! key = None)
    as Hnone.
  { intros key Hkey. revert Hp. unfold process_hostel.
    destruct (block_2_adults sd ed hostel (initial_result hostel)) as [r2| |] eqn:E2;
      try discriminate.
    destruct (block_1_adult sd ed hostel r2) as [r1| |] eqn:E1; try discriminate.
    intros [= <-].
    assert (r1 !! key = None) as Hr1.
    { unfold block_1_adult in E1. unfold block_2_adults in E2.
      rewrite (price_block_frame _ _ _ _ _ _ _ _ key) with (4 := E1);
        [| intros P r; now rewrite (proj2 (rules_unknown_type _ P r Htype))
         | intros ->; discriminate | intros ->; discriminate ].
      rewrite (price_block_frame _ _ _ _ _ _ _ _ key) with (4 := E2);
        [| intros P r; now rewrite (proj1 (rules_unknown_type _ P r Htype))
         | intros ->; discriminate | intros ->; discriminate ].
      unfold initial_result.
      rewrite !lookup_insert_ne by (intros <-; discriminate). apply lookup_empty. }
    unfold mark_no_prices. destruct (has_price_key r1); [exact Hr1|].
    rewrite lookup_insert_ne by (intros <-; discriminate). exact Hr1. }
  split; [|exact Hnone].
  destruct (process_hostel_error_key _ _ _ _ Hp) as [[Hprice _] | [_ He]]; [|exact He].
  apply has_price_key_spec in Hprice as (key & v & Hl & Hkey).
  rewrite (Hnone key Hkey) in Hl. discriminate.
Qed.

(** [unknown_type_gets_no_price] on [unknown_type], over a range. *)
Lemma unknown_type_sample :
  exists result,
    process_hostel (Some 739000%Z) (Some 739001%Z) unknown_type = Next result
    /\ result !! "Error" = Some no_pricing_data
    /\ result !! "Días con Disponibilidad" = Some (VInt 2).
Proof.
  eexists. split; [reflexivity|].
  assert (forall known, In known known_types -> h_type unknown_type <> Some known)
    as Htype.
  { cbv [In known_types]. intros known H.
    repeat (destruct H as [<- | H]; [discriminate|]). destruct H. }
  destruct (unknown_type_gets_no_price unknown_type Htype) as [_ H].
  split; [exact (proj1 (H (Some 739000%Z) (Some 739001%Z) _ eq_refl)) | reflexivity].
Defined.

(** X9.  On a single date (no end date, or an end date equal to the
    selected date) a returned record carries none of the four day-count
    keys. *)
Theorem single_date_has_no_day_counts (d : Z) (end_date : option Z)
    (hostel : hostel_dict (list RawDayRecord)) (result : gmap string value)
    (Hsingle : is_date_range (Some d) end_date = false)
    (Hrun : process_hostel (Some d) end_date hostel = Next result) :
  Forall (fun key => result !! key = None) day_count_keys.
Proof.
  apply List.Forall_forall. intros key Hkey. revert Hrun. unfold process_hostel.
  destruct (block_2_adults (Some d) end_date hostel (initial_result hostel))
    as [r2| |] eqn:E2; try discriminate.
  destruct (block_1_adult (Some d) end_date hostel r2) as [r1| |] eqn:E1;
    try discriminate.
  intros [= <-].
  assert (~ In key keys_2_adults /\ ~ In key keys_1_adult /\ key <> "Error"
          /\ initial_result hostel !! key = None) as (H2 & H1 & He & Hinit).
  { cbv [In day_count_keys] in Hkey.
    repeat (destruct Hkey as [<- | Hkey]; [|]); try (destruct Hkey);
      (split; [not_in_listed_keys|]); (split; [not_in_listed_keys|]);
      (split; [discriminate|]); reflexivity. }
  assert (r1 !! key = None) as Hr1.
  { unfold block_1_adult in E1. unfold block_2_adults in E2.
    rewrite price_block_single in E1, E2 by exact Hsingle.
    rewrite (single_date_rule_frame _ _ _ _ _ key) with (2 := E1);
      [| intros P r; now apply rules_1_adult_frame].
    rewrite (single_date_rule_frame _ _ _ _ _ key) with (2 := E2);
      [| intros P r; now apply rules_2_adults_frame].
    exact Hinit. }
  unfold mark_no_prices. destruct (has_price_key r1); [exact Hr1|].
  now rewrite lookup_insert_ne.
Qed.

(** [single_date_has_no_day_counts] on [private_101]. *)
Lemma single_date_sample :
  exists result,
    process_hostel (Some 739000%Z) None private_101 = Next result
    /\ result !! "Días con Disponibilidad" = None
    /\ result !! "Total Días en Rango 1A" = None.
Proof.
  eexists. split; [reflexivity|].
  pose proof (single_date_has_no_day_counts 739000 None private_101 _ eq_refl
                eq_refl) as H.
  apply List.Forall_forall with (x := "Días con Disponibilidad") in H as H1;
    [|cbv; tauto].
  apply List.Forall_forall with (x := "Total Días en Rango 1A") in H as H2;
    [|cbv; tauto].
  now split.
Defined.

(** ** Numeric extraction *)










(** ** The final price *)


(** ** The list of properties *)

Lemma load_loop_spec (hostels l : list json) :
  load_loop hostels l
  = (hostels ++ map with_url (List.filter accepted (leading_objects l)))%list.
Proof.
  revert hostels. induction l as [|h l IH]; intros hostels; simpl.
  - now rewrite app_nil_r.
  - destruct h as [| | | | |m]; simpl; try (now rewrite app_nil_r).
    destruct (truthy_get (link_to_url m) "url"),
             (truthy_get (link_to_url m) "link"); simpl;
      rewrite IH; try reflexivity; now rewrite <- app_assoc.
Qed.

Lemma link_to_url_link (m : gmap string json) :
  link_to_url m !! "link" = m !! "link".
Proof.
  unfold link_to_url. destruct (m !! "link") eqn:Hl, (m !! "url");
    try exact Hl. now rewrite lookup_insert_ne.
Qed.

Lemma link_to_url_has_url (m : gmap string json) :
  is_Some (m !! "link") \/ is_Some (m !! "url") ->
  is_Some (link_to_url m !! "url").
Proof.
  unfold link_to_url. destruct (m !! "link") eqn:Hl, (m !! "url") eqn:Hu;
    intros [[x H] | [x H]]; try discriminate; rewrite ?Hu; eauto;
    rewrite lookup_insert_eq; eauto.
Qed.

Lemma truthy_get_is_Some (m : gmap string json) (key : string) :
  truthy_get m key = true -> is_Some (m !! key).
Proof. unfold truthy_get. destruct (m !! key); [eauto | discriminate]. Qed.

Lemma accepted_with_url (hostel : json) :
  accepted hostel = true ->
  exists m, with_url hostel = JObj m
    /\ is_Some (m !! "url")
    /\ (truthy_get m "url" = true \/ truthy_get m "link" = true).
Proof.
  destruct hostel as [| | | | |m]; try discriminate. simpl. intros H.
  exists (link_to_url m). split; [reflexivity|].
  apply orb_true_iff in H. split; [|exact H].
  destruct H as [H | H]; [now apply truthy_get_is_Some|].
  apply truthy_get_is_Some in H. rewrite link_to_url_link in H.
  apply link_to_url_has_url. now left.
Qed.

(** X12.  [load_hostel_data] never loses or reorders a predefined
    property: its result is the predefined list followed by what the file
    adds.  Nothing is added without a file, when the file cannot be read or
    decoded, when the decoded value is not an object, or when it has no
    ['hostels'] key.  Every added element is an object that has a ['url']
    key and a true ['url'] or ['link']. *)
Theorem load_hostel_data_keeps_predefined (editable_hostels : list json)
    (file : option file_outcome) :
  exists added,
    load_hostel_data editable_hostels file = (editable_hostels ++ added)%list
    /\ Forall (fun hostel =>
                exists m, hostel = JObj m
                  /\ is_Some (m !! "url")
                  /\ (truthy_get m "url" = true \/ truthy_get m "link" = true))
         added
    /\ (file = None \/ file = Some FileNotFound \/ file = Some InvalidJson
        \/ file = Some OtherReadError -> added = [])
    /\ (forall data, file = Some (Decoded data) -> is_object data = false ->
          added = [])
    /\ (forall data, file = Some (Decoded (JObj data)) ->
          data !! "hostels" = None -> added = []).
Proof.
  assert (forall l, Forall (fun hostel =>
                exists m, hostel = JObj m
                  /\ is_Some (m !! "url")
                  /\ (truthy_get m "url" = true \/ truthy_get m "link" = true))
            (map with_url (List.filter accepted l))) as Hadded.
  { intros l. apply List.Forall_forall. intros h Hh.
    apply in_map_iff in Hh as (h0 & <- & Hh0). apply filter_In in Hh0 as [_ Hacc].
    destruct (accepted_with_url h0 Hacc) as (m & -> & H). eauto. }
  assert (exists added : list json,
            editable_hostels = (editable_hostels ++ added)%list
            /\ Forall (fun hostel =>
                exists m, hostel = JObj m
                  /\ is_Some (m !! "url")
                  /\ (truthy_get m "url" = true \/ truthy_get m "link" = true))
                 added
            /\ added = []) as (nothing & Hn1 & Hn2 & Hn3).
  { exists []. rewrite app_nil_r. repeat split. constructor. }
  destruct file as [[| | |data]|]; simpl;
    try (exists nothing; repeat split; try assumption; intros; congruence).
  destruct data as [| | | | |data];
    try (exists nothing; repeat split; try assumption; intros; congruence).
  destruct (data !! "hostels") as [additional|] eqn:Hadd; simpl;
    [|exists nothing; repeat split; try assumption; intros; congruence].
  destruct (negb (json_truthy additional)) eqn:Htruthy.
  { exists nothing. repeat split; try assumption.
    - intros [H | [H | [H | H]]]; discriminate.
    - intros d [= <-]. discriminate.
    - intros d [= <-]. congruence. }
  destruct additional as [| | | |l|];
    try (exists nothing; repeat split; try assumption;
         [intros [H | [H | [H | H]]]; discriminate
         |intros d [= <-]; discriminate | intros d [= <-]; congruence]).
  exists (map with_url (List.filter accepted (leading_objects l))).
  split; [apply load_loop_spec|]. split; [apply Hadded|].
  split; [intros [H | [H | [H | H]]]; discriminate|].
  split; [intros d [= <-]; discriminate | intros d [= <-]; congruence].
Qed.

(** X13.  From a file whose ['hostels'] value is a list,
    [load_hostel_data] adds, in the order of the file, the accepted
    elements among the objects that come before the first element that is
    not an object, each with its ['url'] filled from ['link'] when only
    ['link'] is there; an element that is not an object ends the loading,
    and the elements after it are not added. *)
Theorem load_hostel_data_from_list (editable_hostels : list json)
    (data : gmap string json) (l : list json)
    (Hdata : data !! "hostels" = Some (JArr l)) :
  load_hostel_data editable_hostels (Some (Decoded (JObj data)))
  = (editable_hostels
     ++ map with_url (List.filter accepted (leading_objects l)))%list
  /\ (forall objects other rest,
        forallb is_object objects = true -> is_object other = false ->
        l = (objects ++ other :: rest)%list ->
        leading_objects l = objects).
Proof.
  split.
  - unfold load_hostel_data. rewrite Hdata. simpl.
    destruct l as [|h l]; simpl; [now rewrite app_nil_r|].
    apply (load_loop_spec editable_hostels (h :: l)).
  - intros objects other rest Hobj Hother ->. clear Hdata.
    induction objects as [|h objects IH]; simpl.
    + destruct other; try reflexivity. discriminate.
    + simpl in Hobj. apply andb_true_iff in Hobj as [Hh Hobj].
      destruct h; try discriminate. now rewrite IH.
Qed.

(** [load_hostel_data_from_list] on [sample_file]: the first property is
    added with its ['url'], the second has no address, and the string ends
    the loading before the fourth. *)
Lemma load_hostel_data_sample :
  load_hostel_data [] (Some (Decoded sample_file))
  = [ JObj {[ "name" := JStr "Hostal A";
              "link" := JStr "https://www.booking.com/hotel/es/a.html";
              "url" := JStr "https://www.booking.com/hotel/es/a.html" ]} ].
Proof.
  destruct (load_hostel_data_from_list [] {[ "hostels" := JArr sample_list ]}
              sample_list (lookup_singleton_eq _ _)) as [H _].
  unfold sample_file. rewrite H. reflexivity.
Defined.

(** ** The URL list of [app.py] *)

Lemma url_in_spec (url : string) (urls : list string) :
  url_in url urls = true <-> url ∈ urls.
Proof.
  unfold url_in. rewrite existsb_exists, list_elem_of_In. split.
  - intros (u & Hu & He). apply String.eqb_eq in He. now subst.
  - intros H. exists url. split; [exact H | apply String.eqb_refl].
Qed.

Lemma well_formed_append (urls : list string) (url : string) :
  well_formed urls -> url <> "" -> url ∉ urls ->
  well_formed (urls ++ [url]).
Proof.
  intros [Hnd Hne] Hurl Hnew. split.
  - apply NoDup_app. split; [exact Hnd|]. split; [|apply NoDup_singleton].
    intros x Hx Hx'. apply list_elem_of_singleton in Hx'. now subst.
  - rewrite elem_of_app, list_elem_of_singleton. intros [H | H]; auto.
Qed.

Lemma append_new_well_formed (urls : list string) (url : string) :
  well_formed urls -> url <> "" -> well_formed (append_new urls url).
Proof.
  intros Hwf Hurl. unfold append_new.
  destruct (url_in url urls) eqn:Hin; [exact Hwf|].
  apply well_formed_append; [exact Hwf | exact Hurl|].
  intros H. apply url_in_spec in H. congruence.
Qed.

Lemma fold_append_new_well_formed (l urls : list string) :
  Forall (fun url => url <> "") l -> well_formed urls ->
  well_formed (fold_left append_new l urls).
Proof.
  intros Hl. revert urls. induction Hl as [|url l Hurl _ IH]; intros urls Hwf; simpl.
  - exact Hwf.
  - apply IH. now apply append_new_well_formed.
Qed.

Lemma list_remove_spec (x : string) (l l' : list string) :
  list_remove x l = Some l' ->
  x ∈ l /\ (NoDup l -> l' = List.filter (fun y => negb (String.eqb y x)) l).
Proof.
  revert l'. induction l as [|y l IH]; intros l'; simpl; [discriminate|].
  destruct (String.eqb_spec y x) as [-> | Hne]; simpl.
  - intros [= <-]. split; [apply elem_of_cons; now left|].
    intros Hnd. apply NoDup_cons in Hnd as [Hx _].
    symmetry. apply forallb_filter_id. apply forallb_forall.
    intros z Hz. apply negb_true_iff, String.eqb_neq. intros ->.
    apply Hx. now apply list_elem_of_In.
  - destruct (list_remove x l) as [r|]; [|discriminate].
    intros [= <-]. destruct (IH r eq_refl) as [Hin Hf].
    split; [apply elem_of_cons; now right|].
    intros Hnd. apply NoDup_cons in Hnd as [_ Hnd]. now rewrite (Hf Hnd).
Qed.

Lemma list_remove_none (x : string) (l : list string) :
  list_remove x l = None <-> x ∉ l.
Proof.
  induction l as [|y l IH]; simpl.
  - split; [intros _; apply not_elem_of_nil | reflexivity].
  - rewrite not_elem_of_cons.
    destruct (String.eqb_spec y x) as [-> | Hne].
    + split; [discriminate | intros [H _]; congruence].
    + destruct (list_remove x l); simpl.
      * split; [discriminate|]. intros [_ H]. now apply IH in H.
      * split; [|reflexivity]. intros _. split; [congruence | now apply IH].
Qed.

Lemma well_formed_filter (f : string -> bool) (urls : list string) :
  well_formed urls -> well_formed (List.filter f urls).
Proof.
  intros [Hnd Hne]. split.
  - induction Hnd as [|u urls Hu Hnd IH]; simpl; [constructor|].
    destruct (f u); [|apply IH; intros H; apply Hne; apply elem_of_cons; now right].
    constructor.
    + rewrite list_elem_of_In, filter_In, <- list_elem_of_In. tauto.
    + apply IH. intros H. apply Hne. apply elem_of_cons. now right.
  - rewrite list_elem_of_In, filter_In, <- list_elem_of_In. tauto.
Qed.

Lemma handle_well_formed (st : app_state) (ev : event) :
  well_formed (hotel_urls st) -> well_formed (hotel_urls (handle st ev)).
Proof.
  intros Hwf. destruct ev as [text| |url| | |data]; cbn [handle hotel_urls].
  - exact Hwf.
  - unfold add_hotel_url.
    destruct (String.eqb_spec (new_hotel_url st) "") as [He | Hne];
      cbn [negb andb]; [exact Hwf|].
    destruct (url_in (new_hotel_url st) (hotel_urls st)) eqn:Hin;
      cbn [negb hotel_urls]; [exact Hwf|].
    apply well_formed_append; [exact Hwf | exact Hne|].
    intros H. apply url_in_spec in H. congruence.
  - unfold remove_hotel_url.
    destruct (list_remove url (hotel_urls st)) as [urls|] eqn:Hr; [|exact Hwf].
    apply list_remove_spec in Hr as [_ Hf]. specialize (Hf (proj1 Hwf)). subst urls.
    cbn [all_hotel_data new_hotel_url].
    destruct (without_url url (all_hotel_data st)); cbn [fst hotel_urls];
      now apply well_formed_filter.
  - split; [constructor | apply not_elem_of_nil].
  - apply fold_append_new_well_formed.
    + unfold barcelona_hostals. repeat constructor; discriminate.
    + split; [constructor | apply not_elem_of_nil].
  - exact Hwf.
Qed.

(** X14.  Whatever the user does (typing in the field, adding, removing,
    clearing, loading the Barcelona list, scraping), the URL list of
    [app.py] never holds a URL twice nor the empty string; adding the same
    text twice adds it once, and a successful add empties the field. *)
Theorem url_list_stays_well_formed (events : list event) :
  well_formed (hotel_urls (fold_left handle events initial_state))
  /\ (forall st, add_hotel_url (add_hotel_url st) = add_hotel_url st)
  /\ (forall st, hotel_urls (add_hotel_url st) <> hotel_urls st ->
        new_hotel_url (add_hotel_url st) = "").
Proof.
  split; [|split].
  - assert (forall st, well_formed (hotel_urls st) ->
              well_formed (hotel_urls (fold_left handle events st))) as H.
    { induction events as [|ev events IH]; intros st Hwf; simpl; [exact Hwf|].
      apply IH. now apply handle_well_formed. }
    apply H. split; [constructor | apply not_elem_of_nil].
  - intros st. unfold add_hotel_url.
    destruct (negb (String.eqb (new_hotel_url st) "")
              && negb (url_in (new_hotel_url st) (hotel_urls st))) eqn:E;
      [reflexivity | now rewrite E].
  - intros st. unfold add_hotel_url.
    destruct (negb (String.eqb (new_hotel_url st) "")
              && negb (url_in (new_hotel_url st) (hotel_urls st)));
      [reflexivity | congruence].
Qed.

(** X15.  [remove_hotel_url] raises [ValueError], leaving the state as it
    was, exactly when the URL is not in the list.  When it ends normally on
    a list without duplicates, the URL is gone from the list, the other
    URLs keep their order, and no scraped entry with that URL is left. *)
Theorem remove_hotel_url_removes (st : app_state) (url : string)
    (Hnodup : NoDup (hotel_urls st)) :
  ((url ∉ hotel_urls st) <-> remove_hotel_url st url = (st, Some ValueError))
  /\ (forall st', remove_hotel_url st url = (st', None) ->
        url ∈ hotel_urls st
        /\ hotel_urls st'
           = List.filter (fun u => negb (String.eqb u url)) (hotel_urls st)
        /\ (url ∉ hotel_urls st')
        /\ Forall (fun h => h !! "url" <> Some (JStr url)) (all_hotel_data st')
        /\ sublist (all_hotel_data st') (all_hotel_data st)).
Proof.
  split.
  - rewrite <- list_remove_none. unfold remove_hotel_url.
    destruct (list_remove url (hotel_urls st)) as [urls|]; [|tauto].
    split; [discriminate|]. cbn [all_hotel_data new_hotel_url].
    destruct (without_url url (all_hotel_data st)); intros [=].
  - intros st'. unfold remove_hotel_url.
    destruct (list_remove url (hotel_urls st)) as [urls|] eqn:Hr; [|discriminate].
    apply list_remove_spec in Hr as [Hin Hf]. specialize (Hf Hnodup). subst urls.
    cbn [all_hotel_data new_hotel_url].
    destruct (without_url url (all_hotel_data st)) as [data|] eqn:Hd; [|discriminate].
    intros [= <-]. cbn [all_hotel_data hotel_urls]. split; [exact Hin|]. split; [reflexivity|]. split.
    { rewrite list_elem_of_In, filter_In. intros [_ H].
      now rewrite String.eqb_refl in H. }
    clear Hin Hnodup. revert data Hd.
    induction (all_hotel_data st) as [|h rest IH]; intros data; simpl.
    + intros [= <-]. split; constructor.
    + destruct (h !! "url") as [v|] eqn:Hv; [|discriminate].
      destruct (without_url url rest) as [kept_data|]; [|discriminate].
      destruct (IH kept_data eq_refl) as [Hall Hsub].
      destruct (json_is_str url v) eqn:Hs; intros [= <-].
      * split; [exact Hall | now apply sublist_cons].
      * split; [|now apply sublist_skip].
        constructor; [|exact Hall]. rewrite Hv. intros [= ->].
        simpl in Hs. now rewrite bool_decide_eq_true_2 in Hs.
Qed.

(** [remove_hotel_url_removes] after loading the Barcelona list. *)
Lemma remove_hotel_url_sample :
  let st := load_barcelona_hostals initial_state in
  length (hotel_urls st) = 16%nat
  /\ exists st',
       remove_hotel_url st "https://www.booking.com/hotel/es/lyon.es.html"
       = (st', None)
       /\ length (hotel_urls st') = 15%nat
       /\ "https://www.booking.com/hotel/es/lyon.es.html" ∉ hotel_urls st'.
Proof.
  split; [reflexivity|]. eexists. split; [reflexivity|]. split; [reflexivity|].
  assert (NoDup (hotel_urls (load_barcelona_hostals initial_state))) as Hnd.
  { apply (handle_well_formed initial_state LoadBarcelona).
    split; [constructor | apply not_elem_of_nil]. }
  destruct (remove_hotel_url_removes (load_barcelona_hostals initial_state)
              "https://www.booking.com/hotel/es/lyon.es.html" Hnd) as [_ H].
  exact (proj1 (proj2 (proj2 (H _ eq_refl)))).
Defined.

(** ** Shared and private prices *)






(** ** The price handed to the pricing rules *)

Lemma Qsum_above_cons (c : Q) (l : list Q) :
  Forall (fun q => (c < q)%Q) l ->
  forall q, (c < q)%Q ->
  (c * inject_Z (Z.of_nat (S (length l))) < q + Qsum l)%Q.
Proof.
  induction 1 as [|q' l Hq' Hl IH]; intros q Hq.
  - change (c * 1 < q + 0)%Q. lra.
  - specialize (IH q' Hq'). cbn [length].
    rewrite Nat2Z.inj_succ, <- Z.add_1_r, inject_Z_plus.
    change (Qsum (q' :: l)) with (q' + Qsum l)%Q.
    generalize dependent (inject_Z (Z.of_nat (S (length l)))). intros n IH.
    change (inject_Z 1) with 1%Q. nra.
Qed.

Lemma Qsum_above (c : Q) (l : list Q) :
  Forall (fun q => (c < q)%Q) l -> l <> [] ->
  (c * inject_Z (Z.of_nat (length l)) < Qsum l)%Q.
Proof.
  intros Hl Hne. destruct Hl as [|q l Hq Hl]; [congruence|].
  now apply Qsum_above_cons.
Qed.


Lemma series_mean_above (c : Q) (rows : list Row) :
  Forall (fun row => exists p, price row = Some p /\ (c < p)%Q) rows ->
  rows <> [] ->
  exists mean, series_mean (map price rows) = Some mean /\ (c < mean)%Q.
Proof.
  intros Hrows Hne.
  assert (priced rows) as Hp.
  { eapply Forall_impl; [exact Hrows|]. intros row (p & H & _). eauto. }
  destruct (series_mean_spec rows Hp Hne) as (mean & prices & Hm & Hprices & Hsum).
  exists mean. split; [exact Hm|].
  assert (Forall (fun q => (c < q)%Q) prices) as Habove.
  { clear Hsum Hm Hne Hp. revert prices Hprices.
    induction Hrows as [|row rows (p & Hpr & Hlt) _ IH]; intros prices Hprices.
    - destruct prices; [constructor | discriminate].
    - destruct prices as [|q prices]; [discriminate|]. simpl in Hprices.
      injection Hprices as Hq Hrest. constructor; [congruence | now apply IH]. }
  assert (length prices = length rows) as Hlen.
  { rewrite <- (length_map Some prices), Hprices. apply length_map. }
  assert (prices <> []) as Hne'.
  { intros ->. destruct rows; [congruence | discriminate]. }
  pose proof (Qsum_above c prices Habove Hne') as Hbound.
  rewrite Hlen, <- Hsum in Hbound.
  assert (0 < inject_Z (Z.of_nat (length rows)))%Q as Hpos.
  { change 0%Q with (inject_Z 0). rewrite <- Zlt_Qlt.
    destruct rows; [congruence | simpl; lia]. }
  now apply Qmult_lt_r in Hbound.
Qed.



(** X18.  Without any date (the defaults of the parameters of
    [process_hostel_data]) a block uses the mean of all the entries above
    0.01, which is above 0.01 itself, and reports 1 as the total number of
    days, whatever the number of entries. *)
Theorem no_date_uses_the_mean (k_days k_total : string)
    (rules : float -> gmap string value -> gmap string value)
    (data : list RawDayRecord) (result : gmap string value)
    (Hne : normalize data <> []) :
  price_block k_days k_total rules None None (Some data) result
  = Next (rules (series_mean (map price (normalize data)))
            (<[k_total := VInt 1]>
               (<[k_days := VInt (Z.of_nat (length (normalize data)))]> result)))
  /\ exists mean, series_mean (map price (normalize data)) = Some mean
                  /\ (0.01 < mean)%Q.
Proof.
  split.
  - unfold price_block. unfold normalize in Hne. unfold normalize.
    destruct data as [|r l]; [now contradiction Hne|].
    cbn [parse_hotel_prices map] in Hne. cbn [parse_hotel_prices map].
    destruct (filter_available (parse_row r :: map parse_row l)) as [|row' rows];
      [congruence | reflexivity].
  - apply series_mean_above; [apply normalize_above | exact Hne].
Qed.

(** [no_date_uses_the_mean] on [two_days]. *)
Lemma no_date_sample :
  exists result,
    block_2_adults None None private_101 ∅ = Next result
    /\ result !! "Total Días en Rango" = Some (VInt 1)
    /\ result !! "Días con Disponibilidad" = Some (VInt 1).
Proof.
  assert (normalize [ {| checkin := 739000; available := true;
                         avgPriceFormatted := "€ 101" |} ] <> []) as Hne
    by discriminate.
  destruct (no_date_uses_the_mean "Días con Disponibilidad" "Total Días en Rango"
              (rules_2_adults (Some "Privado")) _ ∅ Hne) as [Hrun _].
  eexists. split; [exact Hrun|].
  split; rewrite (fun P r => proj1 (rules_2_adults_day_keys (Some "Privado") P r))
    || rewrite (fun P r => proj2 (rules_2_adults_day_keys (Some "Privado") P r));
    reflexivity.
Defined.
